(** * EmulatedRequestProcessor: a shallow embedding and its properties

    The model follows
    [devices/EmulatedCamera/hwl/EmulatedRequestProcessor.cpp]:
    the bounded queue of pending requests, the resolution of stream buffers
    into sensor buffers, the wait on acquire fences, the worker iteration and
    the flush.  Calls into other components (the handle importer, the sensor,
    the request state, [sync_wait]) are answered by a record of collaborators
    that threads an abstract world; calls whose arguments matter to a
    property are also appended to a trace. *)

From Stdlib Require Import ZArith Lia Bool List.
From stdpp Require Import base option list gmap.
Import ListNotations.

(** ** Machine integers and status codes *)

Definition wrap32 (z : Z) : Z := (z mod 2 ^ 32)%Z.

(** [uint32_t] multiplication. *)
Definition mul32 (a b : Z) : Z := wrap32 (a * b).

(** [static_cast<int32_t>] of a [uint32_t]. *)
Definition to_int32 (z : Z) : Z :=
  let u := wrap32 z in
  if (u <? 2 ^ 31)%Z then u else (u - 2 ^ 32)%Z.

(** [status_t] values of [utils/Errors.h]. *)
Definition status_t := Z.
Definition OK : status_t := 0%Z.
Definition BAD_VALUE : status_t := (-22)%Z.
Definition TIMED_OUT : status_t := (-110)%Z.

(** Pixel formats and data spaces of the graphics headers. *)
Definition HAL_PIXEL_FORMAT_RGBA_8888 : Z := 1%Z.
Definition HAL_PIXEL_FORMAT_RGB_888 : Z := 3%Z.
Definition HAL_PIXEL_FORMAT_RAW16 : Z := 32%Z.
Definition HAL_PIXEL_FORMAT_BLOB : Z := 33%Z.
Definition HAL_PIXEL_FORMAT_YCBCR_420_888 : Z := 35%Z.
Definition HAL_PIXEL_FORMAT_Y16 : Z := 540422489%Z.
Definition HAL_DATASPACE_DEPTH : Z := 4096%Z.
Definition HAL_DATASPACE_V0_JFIF : Z := 146931712%Z.

(** What ends a call abnormally: a dereference of a null pointer, an
    [std::out_of_range] thrown by [at], an [std::bad_function_call] thrown by
    an empty [std::function], an [operator[]] past the end of a vector.  None
    of them is caught or guarded in this file. *)
Inductive Fault : Type :=
| NullDeref
| OutOfRange
| BadFunctionCall
| UncheckedIndex.

(** ** Data model *)

(** The fields of [EmulatedStream] that the processor reads. *)
Record EmulatedStream : Type := {
  width : Z;
  height : Z;
  override_format : Z;
  override_data_space : Z;
  buffer_size : Z;
  producer_usage : Z;
  is_input : bool
}.

Inductive BufferStatus : Type := kOk | kError.

(** [StreamBuffer]: [buffer] is the handle, [acquire_fence] is [None] for a
    null fence handle. *)
Record StreamBuffer : Type := {
  stream_id : Z;
  buffer_id : Z;
  buffer : Z;
  status : BufferStatus;
  acquire_fence : option Z
}.

(** [HwlPipelineCallback]: [notify] is an [std::function]; [None] is the
    empty function, [Some c] names the callee. *)
Record HwlPipelineCallback : Type := {
  notify : option nat
}.

(** The union [SensorBuffer::plane], with its discriminant made explicit.
    Pointers are addresses, [0] is the null pointer. *)
Inductive Plane : Type :=
| SinglePlane (img stride buffer_size : Z)
| YCbCrPlanes (img_y img_cb img_cr y_stride cbcr_stride cbcr_step : Z).

Record SensorBuffer : Type := {
  sb_width : Z;
  sb_height : Z;
  frame_number : Z;
  pipeline_id : Z;
  camera_id : Z;
  format : Z;
  dataSpace : Z;
  stream_buffer : StreamBuffer;
  callback : HwlPipelineCallback;
  acquire_fence_fd : Z;
  sb_is_input : bool;
  plane : Plane
}.

(** [Buffers] is a vector of owned sensor buffers; a [unique_ptr<Buffers>] is
    an [option Buffers]. *)
Definition Buffers := list SensorBuffer.

(** Opaque payloads of other components, named by their content. *)
Inductive HalCameraMetadata : Type := MetadataBlob (content : Z).
Inductive SensorSettings : Type := SettingsValue (content : Z).
Inductive HwlPipelineResult : Type := ResultValue (content : Z).

(** [HalCameraMetadata::Clone] of a possibly null pointer: a deep copy. *)
Definition Clone (m : option HalCameraMetadata) : option HalCameraMetadata := m.

Record HwlPipelineRequest : Type := {
  req_pipeline_id : nat;
  req_settings : option HalCameraMetadata;
  req_input_buffers : list StreamBuffer;
  req_output_buffers : list StreamBuffer
}.

Record EmulatedPipeline : Type := {
  cb : HwlPipelineCallback;
  streams : gmap Z EmulatedStream
}.

Record PendingRequest : Type := {
  settings : option HalCameraMetadata;
  input_buffers : option Buffers;
  output_buffers : option Buffers
}.

Inductive MessageType : Type := kErrorMessage | kShutter.
Inductive ErrorCode : Type :=
| kErrorDevice | kErrorRequest | kErrorResult | kErrorBuffer.

(** [NotifyMessage] with the error member of its union. *)
Record NotifyMessage : Type := {
  msg_type : MessageType;
  msg_frame_number : Z;
  error_stream_id : Z;
  error_code : ErrorCode
}.

(** [YCbCrLayout] as returned by [HandleImporter::lockYCbCr]. *)
Record YCbCrLayout : Type := {
  y : Z; cb_ptr : Z; cr_ptr : Z;
  yStride : Z; cStride : Z; chromaStep : Z
}.

(** Calls that leave the processor and whose arguments are observed. *)
Inductive Event : Type :=
| EvInitializeSensorSettings (blob : option HalCameraMetadata)
| EvSetCurrentRequest (s : SensorSettings) (r : HwlPipelineResult)
    (inputs outputs : option Buffers)
| EvNotify (callee : nat) (pipeline : Z) (msg : NotifyMessage)
| EvSensorFlush.

(** ** Collaborators

    Constants and helpers declared outside this file, and the components the
    processor calls.  Every call may depend on and change the world. *)
Record Collaborators : Type := {
  World : Type;
  (** [EmulatedSensor::kPipelineDepth] *)
  kPipelineDepth : nat;
  (** [EmulatedSensor::kSupportedFrameDurationRange[1]], in nanoseconds *)
  kMaxFrameDuration : Z;
  (** [acquire_fence_fd] and [plane] of a newly constructed [SensorBuffer] *)
  initial_acquire_fence_fd : Z;
  initial_plane : Plane;
  AlignTo : Z -> Z -> Z;
  OverrideFormat : Z -> Z;
  (** [importer.lock (buffer, usage, size)]: the mapped address *)
  importer_lock : Z -> Z -> Z -> World -> Z * World;
  (** [importer.lockYCbCr (buffer, usage, {0, 0, width, height})] *)
  importer_lockYCbCr : Z -> Z -> Z * Z -> World -> YCbCrLayout * World;
  (** [importer.importFence (handle, fd)]: success and the value left in fd *)
  importer_importFence : Z -> World -> (bool * Z) * World;
  (** [sync_wait (fd, timeout_ms)] *)
  sync_wait : Z -> Z -> World -> status_t * World;
  InitializeSensorSettings :
    option HalCameraMetadata -> World -> (status_t * SensorSettings) * World;
  InitializeResult : Z -> Z -> World -> HwlPipelineResult * World;
  sensor_Flush : World -> status_t * World;
  sensor_WaitForVSync : Z -> World -> bool * World
}.

(** [ns2ms] of [utils/Timers.h]. *)
Definition ns2ms (ns : Z) : Z := (ns ÷ 1000000)%Z.

(** ** A state and fault monad *)

Definition M (S A : Type) : Type := S -> Fault + (A * S).

Definition ret {S A : Type} (a : A) : M S A := fun s => inr (a, s).

Definition bind {S A B : Type} (m : M S A) (k : A -> M S B) : M S B :=
  fun s => match m s with
           | inl f => inl f
           | inr (a, s') => k a s'
           end.

Definition raise {S A : Type} (f : Fault) : M S A := fun _ => inl f.

(** A collaborator's answer, which cannot fault. *)
Definition call {S A : Type} (c : S -> A * S) : M S A := fun s => inr (c s).

Notation "'let*' x ':=' m 'in' k" := (bind m (fun x => k))
  (at level 10, x name, m at level 200, k at level 200).
Notation "'let*' ' p ':=' m 'in' k" := (bind m (fun x => let p := x in k))
  (at level 10, p pattern, m at level 200, k at level 200).

Section Processor.

Variable E : Collaborators.

(** ** GetBufferSizeAndStride

    [size] and [stride] are the cells behind the two out pointers, [None] for
    a null pointer.  Only [size] is checked against null. *)
Definition GetBufferSizeAndStride (stream : EmulatedStream)
    (size stride : option Z)
  : Fault + (status_t * option Z * option Z) :=
  match size with
  | None => inr (BAD_VALUE, size, stride)
  | Some _ =>
    let store (new_stride : Z) (new_size : Z -> Z) :=
      match stride with
      | None => inl NullDeref
      | Some _ => inr (OK, Some (new_size new_stride), Some new_stride)
      end in
    let fmt := override_format stream in
    if (fmt =? HAL_PIXEL_FORMAT_RGB_888)%Z then
      store (mul32 (width stream) 3) (fun st => mul32 st (width stream))
    else if (fmt =? HAL_PIXEL_FORMAT_RGBA_8888)%Z then
      store (mul32 (width stream) 4) (fun st => mul32 st (width stream))
    else if (fmt =? HAL_PIXEL_FORMAT_Y16)%Z then
      if (override_data_space stream =? HAL_DATASPACE_DEPTH)%Z then
        store (AlignTo E (mul32 (AlignTo E (width stream) 2) 2) 16)
              (fun st => mul32 st (AlignTo E (height stream) 2))
      else inr (BAD_VALUE, size, stride)
    else if (fmt =? HAL_PIXEL_FORMAT_BLOB)%Z then
      if (override_data_space stream =? HAL_DATASPACE_V0_JFIF)%Z then
        match stride with
        | None => inl NullDeref
        | Some _ =>
          inr (OK, Some (buffer_size stream), Some (buffer_size stream))
        end
      else inr (BAD_VALUE, size, stride)
    else if (fmt =? HAL_PIXEL_FORMAT_RAW16)%Z then
      store (mul32 (width stream) 2) (fun st => mul32 st (width stream))
    else inr (BAD_VALUE, size, stride)
  end.

(** ** LockSensorBuffer

    [sensor_buffer] is the record behind the out pointer.  The record is
    returned as the call leaves it, together with the status. *)
Definition store_img (p : Plane) (img : Z) : Plane :=
  match p with
  | SinglePlane _ st sz => SinglePlane img st sz
  | YCbCrPlanes _ pcb pcr ys cs step => YCbCrPlanes img pcb pcr ys cs step
  end.

Definition with_plane (b : SensorBuffer) (p : Plane) : SensorBuffer :=
  {| sb_width := sb_width b; sb_height := sb_height b;
     frame_number := frame_number b; pipeline_id := pipeline_id b;
     camera_id := camera_id b; format := format b; dataSpace := dataSpace b;
     stream_buffer := stream_buffer b; callback := callback b;
     acquire_fence_fd := acquire_fence_fd b; sb_is_input := sb_is_input b;
     plane := p |}.

Definition with_acquire_fence_fd (b : SensorBuffer) (fd : Z) : SensorBuffer :=
  {| sb_width := sb_width b; sb_height := sb_height b;
     frame_number := frame_number b; pipeline_id := pipeline_id b;
     camera_id := camera_id b; format := format b; dataSpace := dataSpace b;
     stream_buffer := stream_buffer b; callback := callback b;
     acquire_fence_fd := fd; sb_is_input := sb_is_input b;
     plane := plane b |}.

Definition nonnull (p : Z) : bool := negb (p =? 0)%Z.

Definition LockSensorBuffer (stream : EmulatedStream) (buffer : Z)
    (sensor_buffer : option SensorBuffer)
  : M (World E) (status_t * option SensorBuffer) :=
  match sensor_buffer with
  | None => ret (BAD_VALUE, None)
  | Some sb =>
    let w := to_int32 (width stream) in
    let h := to_int32 (height stream) in
    if (override_format stream =? HAL_PIXEL_FORMAT_YCBCR_420_888)%Z then
      let* yuv_layout :=
        call (importer_lockYCbCr E buffer (producer_usage stream) (w, h)) in
      if nonnull (y yuv_layout) && nonnull (cb_ptr yuv_layout)
         && nonnull (cr_ptr yuv_layout)
      then ret (OK, Some (with_plane sb
                  (YCbCrPlanes (y yuv_layout) (cb_ptr yuv_layout)
                     (cr_ptr yuv_layout) (yStride yuv_layout)
                     (cStride yuv_layout) (chromaStep yuv_layout))))
      else ret (BAD_VALUE, Some sb)
    else
      match GetBufferSizeAndStride stream (Some 0%Z) (Some 0%Z) with
      | inl f => raise f
      | inr (r, Some size, Some stride) =>
        if (r =? OK)%Z then
          let* img :=
            call (importer_lock E buffer (producer_usage stream) size) in
          if nonnull img
          then ret (OK, Some (with_plane sb (SinglePlane img stride size)))
          else ret (r, Some (with_plane sb (store_img (plane sb) img)))
        else ret (BAD_VALUE, Some sb)
      | inr (_, _, _) => raise NullDeref
      end
  end.

(** ** CreateSensorBuffer

    The result is [None] for a null [unique_ptr]. *)
Definition with_override_format (s : EmulatedStream) (f : Z) : EmulatedStream :=
  {| width := width s; height := height s; override_format := f;
     override_data_space := override_data_space s;
     buffer_size := buffer_size s; producer_usage := producer_usage s;
     is_input := is_input s |}.

Definition with_status (b : StreamBuffer) (st : BufferStatus) : StreamBuffer :=
  {| stream_id := stream_id b; buffer_id := buffer_id b; buffer := buffer b;
     status := st; acquire_fence := acquire_fence b |}.

Definition CreateSensorBuffer (camera_id_ frame : Z)
    (emulated_stream : EmulatedStream) (pipeline : Z)
    (cbk : HwlPipelineCallback) (sbuf : StreamBuffer)
  : M (World E) (option SensorBuffer) :=
  let stream :=
    if is_input emulated_stream
    then with_override_format emulated_stream
           (OverrideFormat E (override_format emulated_stream))
    else emulated_stream in
  let fresh :=
    {| sb_width := width stream; sb_height := height stream;
       frame_number := frame; pipeline_id := pipeline;
       camera_id := camera_id_; format := override_format stream;
       dataSpace := override_data_space stream;
       stream_buffer := with_status sbuf kError; callback := cbk;
       acquire_fence_fd := initial_acquire_fence_fd E;
       sb_is_input := is_input stream; plane := initial_plane E |} in
  let* '(r, locked) := LockSensorBuffer stream (buffer sbuf) (Some fresh) in
  let kept := if (r =? OK)%Z then locked else None in
  match acquire_fence sbuf with
  | None => ret kept
  | Some fence =>
    match kept with
    | None => raise NullDeref
    | Some b =>
      let* '(fence_status, fd) := call (importer_importFence E fence) in
      if fence_status : bool
      then ret (Some (with_acquire_fence_fd b fd))
      else ret None
    end
  end.

(** ** CreateSensorBuffers *)
Fixpoint CreateSensorBuffers_loop (camera_id_ frame : Z)
    (buffers : list StreamBuffer) (strs : gmap Z EmulatedStream)
    (pipeline : Z) (cbk : HwlPipelineCallback)
  : M (World E) Buffers :=
  match buffers with
  | [] => ret []
  | b :: rest =>
    match strs !! stream_id b with
    | None => raise OutOfRange
    | Some stream =>
      let* sensor_buffer :=
        CreateSensorBuffer camera_id_ frame stream pipeline cbk b in
      let* sensor_buffers :=
        CreateSensorBuffers_loop camera_id_ frame rest strs pipeline cbk in
      ret (match sensor_buffer with
           | Some sb => sb :: sensor_buffers
           | None => sensor_buffers
           end)
    end
  end.

Definition CreateSensorBuffers (camera_id_ frame : Z)
    (buffers : list StreamBuffer) (strs : gmap Z EmulatedStream)
    (pipeline : Z) (cbk : HwlPipelineCallback)
  : M (World E) (option Buffers) :=
  match buffers with
  | [] => ret None
  | _ :: _ =>
    let* sensor_buffers :=
      CreateSensorBuffers_loop camera_id_ frame buffers strs pipeline cbk in
    ret (Some sensor_buffers)
  end.

(** ** AcquireBuffers

    The loop walks [buffers] from the front, moves a record to the acquired
    list when its wait succeeded or it has no fence descriptor, and erases it
    from [buffers] either way.  The source list, left empty, is not read
    again by any caller before the request is popped. *)
Fixpoint AcquireBuffers_loop (buffers : Buffers) : M (World E) Buffers :=
  match buffers with
  | [] => ret []
  | output_buffer :: rest =>
    let* r :=
      if (0 <=? acquire_fence_fd output_buffer)%Z
      then call (sync_wait E (acquire_fence_fd output_buffer)
                   (ns2ms (kMaxFrameDuration E)))
      else ret OK in
    let* acquired_buffers := AcquireBuffers_loop rest in
    ret (if (r =? OK)%Z
         then output_buffer :: acquired_buffers
         else acquired_buffers)
  end.

Definition AcquireBuffers (buffers : option Buffers)
  : M (World E) (option Buffers) :=
  match buffers with
  | None => ret None
  | Some [] => ret None
  | Some (b :: rest) =>
    let* acquired_buffers := AcquireBuffers_loop (b :: rest) in
    ret (Some acquired_buffers)
  end.

(** ** The processor state *)
Record Proc : Type := {
  camera_id_ : Z;
  pending_requests_ : list PendingRequest;
  last_settings_ : option HalCameraMetadata;
  world : World E;
  trace : list Event
}.

Definition set_pending (q : list PendingRequest) : M Proc unit :=
  fun s => inr (tt, {| camera_id_ := camera_id_ s; pending_requests_ := q;
                       last_settings_ := last_settings_ s;
                       world := world s; trace := trace s |}).

(** [pending_requests_.pop()] and [pending_requests_.push(r)] *)
Definition pop_pending : M Proc unit :=
  fun s => set_pending (tail (pending_requests_ s)) s.

Definition push_pending (r : PendingRequest) : M Proc unit :=
  fun s => set_pending (pending_requests_ s ++ [r]) s.

Definition set_last_settings (m : option HalCameraMetadata) : M Proc unit :=
  fun s => inr (tt, {| camera_id_ := camera_id_ s;
                       pending_requests_ := pending_requests_ s;
                       last_settings_ := m;
                       world := world s; trace := trace s |}).

Definition emit (ev : Event) : M Proc unit :=
  fun s => inr (tt, {| camera_id_ := camera_id_ s;
                       pending_requests_ := pending_requests_ s;
                       last_settings_ := last_settings_ s;
                       world := world s; trace := trace s ++ [ev] |}).

(** Runs a computation on the world inside the processor state. *)
Definition in_world {A : Type} (m : M (World E) A) : M Proc A :=
  fun s => match m (world s) with
           | inl f => inl f
           | inr (a, w) =>
             inr (a, {| camera_id_ := camera_id_ s;
                        pending_requests_ := pending_requests_ s;
                        last_settings_ := last_settings_ s;
                        world := w; trace := trace s |})
           end.

(** [request.output_buffers->at(0)]: the pointer is dereferenced unchecked,
    [at] checks the index. *)
Definition first_output_buffer (request : PendingRequest)
  : Fault + SensorBuffer :=
  match output_buffers request with
  | None => inl NullDeref
  | Some [] => inl OutOfRange
  | Some (b :: _) => inr b
  end.

Definition lift_fault {S A : Type} (r : Fault + A) : M S A :=
  match r with
  | inl f => raise f
  | inr a => ret a
  end.

Definition error_message (frame : Z) (code : ErrorCode) : NotifyMessage :=
  {| msg_type := kErrorMessage; msg_frame_number := frame;
     error_stream_id := (-1)%Z; error_code := code |}.

(** ** NotifyFailedRequest *)
Definition NotifyFailedRequest (request : PendingRequest) : M Proc unit :=
  let* b := lift_fault (first_output_buffer request) in
  match notify (callback b) with
  | Some callee =>
    emit (EvNotify callee (pipeline_id b)
            (error_message (frame_number b) kErrorRequest))
  | None => ret tt
  end.

(** ** Flush

    [Flush_loop] recurses on the content of the queue; every round notifies
    for the front and pops it. *)
Fixpoint Flush_loop (queue : list PendingRequest) : M Proc unit :=
  match queue with
  | [] => ret tt
  | request :: rest =>
    let* _ := NotifyFailedRequest request in
    let* _ := pop_pending in
    Flush_loop rest
  end.

Definition Flush : M Proc status_t :=
  let* _ := emit EvSensorFlush in
  let* r := in_world (call (sensor_Flush E)) in
  let* _ := (fun s => Flush_loop (pending_requests_ s) s) in
  ret r.

(** ** RequestProcessorLoop

    [RequestProcessorLoop_body] is the block that runs under
    [process_mutex_] in one iteration. *)
Definition RequestProcessorLoop_body : M Proc unit :=
  fun s0 =>
  match pending_requests_ s0 with
  | [] => inr (tt, s0)
  | request :: rest =>
    (let* b := lift_fault (first_output_buffer request) in
     let frame := frame_number b in
     let notify_callback := callback b in
     let pipeline := pipeline_id b in
     let* '(r, sensor_settings) :=
       match settings request with
       | Some m =>
         let* _ := emit (EvInitializeSensorSettings (Clone (Some m))) in
         let* res :=
           in_world (call (InitializeSensorSettings E (Clone (Some m)))) in
         let* _ := set_last_settings (Clone (Some m)) in
         ret res
       | None =>
         let* last := (fun s => inr (last_settings_ s, s)) in
         let* _ := emit (EvInitializeSensorSettings (Clone last)) in
         in_world (call (InitializeSensorSettings E (Clone last)))
       end in
     let* outputs := in_world (AcquireBuffers (output_buffers request)) in
     let* nonempty :=
       match outputs with
       | None => raise NullDeref
       | Some [] => ret false
       | Some (_ :: _) => ret true
       end in
     let* _ :=
       if nonempty && (r =? OK)%Z then
         let* result := in_world (call (InitializeResult E pipeline frame)) in
         let* inputs := in_world (AcquireBuffers (input_buffers request)) in
         emit (EvSetCurrentRequest sensor_settings result inputs outputs)
       else
         match notify notify_callback with
         | None => raise BadFunctionCall
         | Some callee =>
           emit (EvNotify callee pipeline (error_message frame kErrorResult))
         end in
     pop_pending) s0
  end.

(** [request_condition_.notify_one()] changes nothing in the state: a blocked
    submitter may wake at any step, see [step_wake] below. *)

(** ** ProcessPipelineRequests

    The call holds [process_mutex_] except inside [wait_for].  It is modelled
    by the segments it runs with the mutex held: [submit_requests] runs from
    the head of the [for] loop until the call returns or blocks in
    [wait_for]; [submit_wake] runs from the return of [wait_for]. *)
Inductive cv_status : Type := no_timeout | timeout.

Inductive SubmitPC : Type :=
| InWait (request : HwlPipelineRequest) (rest : list HwlPipelineRequest)
| Returned (r : status_t).

(** The two [CreateSensorBuffers] calls and the push of one request. *)
Definition push_request (frame : Z) (pipelines : list EmulatedPipeline)
    (request : HwlPipelineRequest) : M Proc unit :=
  match pipelines !! req_pipeline_id request with
  | None => raise UncheckedIndex
  | Some pipeline =>
    let* cam := (fun s => inr (camera_id_ s, s)) in
    let* outputs :=
      in_world (CreateSensorBuffers cam frame (req_output_buffers request)
                  (streams pipeline) (Z.of_nat (req_pipeline_id request))
                  (cb pipeline)) in
    let* inputs :=
      in_world (CreateSensorBuffers cam frame (req_input_buffers request)
                  (streams pipeline) (Z.of_nat (req_pipeline_id request))
                  (cb pipeline)) in
    push_pending {| settings := Clone (req_settings request);
                    input_buffers := inputs;
                    output_buffers := outputs |}
  end.

(** The [while] test for [request]: block, or push and go on with [continue]
    (the remaining requests of the [for] loop). *)
Definition wait_or_push (frame : Z) (pipelines : list EmulatedPipeline)
    (request : HwlPipelineRequest) (rest : list HwlPipelineRequest)
    (continue : M Proc SubmitPC) : M Proc SubmitPC :=
  fun s =>
    if kPipelineDepth E <? length (pending_requests_ s)
    then inr (InWait request rest, s)
    else (let* _ := push_request frame pipelines request in continue) s.

Fixpoint submit_requests (frame : Z) (pipelines : list EmulatedPipeline)
    (requests : list HwlPipelineRequest) : M Proc SubmitPC :=
  match requests with
  | [] => ret (Returned OK)
  | request :: rest =>
    if length pipelines <=? req_pipeline_id request
    then ret (Returned BAD_VALUE)
    else wait_or_push frame pipelines request rest
           (submit_requests frame pipelines rest)
  end.

Definition submit_wake (frame : Z) (pipelines : list EmulatedPipeline)
    (result : cv_status) (request : HwlPipelineRequest)
    (rest : list HwlPipelineRequest) : M Proc SubmitPC :=
  match result with
  | timeout => ret (Returned TIMED_OUT)
  | no_timeout =>
    wait_or_push frame pipelines request rest
      (submit_requests frame pipelines rest)
  end.

(** ** Interleavings

    Every segment that runs under [process_mutex_] is one step.  A label
    names what the step did to the queue: the requests it pushed, the request
    the worker took, the requests a flush drained. *)
Inductive Label : Type :=
| LPush (pushed : list PendingRequest)
| LTake (taken : option PendingRequest)
| LDrain (drained : list PendingRequest)
| LVSync.

Definition pushed_by (s s' : Proc) : list PendingRequest :=
  drop (length (pending_requests_ s)) (pending_requests_ s').

Inductive step : Proc -> Label -> Proc -> Prop :=
| step_submit frame pipelines requests s pc s' :
    submit_requests frame pipelines requests s = inr (pc, s') ->
    step s (LPush (pushed_by s s')) s'
| step_wake frame pipelines result request rest s pc s' :
    submit_wake frame pipelines result request rest s = inr (pc, s') ->
    step s (LPush (pushed_by s s')) s'
| step_worker s s' :
    RequestProcessorLoop_body s = inr (tt, s') ->
    step s (LTake (head (pending_requests_ s))) s'
| step_flush s r s' :
    Flush s = inr (r, s') ->
    step s (LDrain (pending_requests_ s)) s'
| step_vsync s b w :
    sensor_WaitForVSync E (kMaxFrameDuration E) (world s) = (b, w) ->
    step s LVSync
      {| camera_id_ := camera_id_ s;
         pending_requests_ := pending_requests_ s;
         last_settings_ := last_settings_ s;
         world := w; trace := trace s |}.

Inductive exec : Proc -> list Label -> Proc -> Prop :=
| exec_nil s : exec s [] s
| exec_snoc s ls s1 l s2 :
    exec s ls s1 -> step s1 l s2 -> exec s (ls ++ [l]) s2.

Definition pushes (ls : list Label) : list PendingRequest :=
  concat (map (fun l => match l with LPush p => p | _ => [] end) ls).

Definition worker_takes (ls : list Label) : list PendingRequest :=
  concat (map (fun l => match l with
                        | LTake (Some r) => [r]
                        | _ => []
                        end) ls).

Definition removals (ls : list Label) : list PendingRequest :=
  concat (map (fun l => match l with
                        | LTake (Some r) => [r]
                        | LDrain d => d
                        | _ => []
                        end) ls).

(** A whole call of [ProcessPipelineRequests]: its first segment, then a
    wake-up for every [wait_for].  While the call is blocked the mutex is
    free, and [interference] relates the state at the wait to the state at the
    wake-up.  The run records the result of every wait, and the requests the
    call itself pushed. *)
Section Calls.

Variable interference : Proc -> Proc -> Prop.

Inductive submit_run (frame : Z) (pipelines : list EmulatedPipeline)
  : SubmitPC -> Proc -> list cv_status -> list PendingRequest ->
    status_t -> Proc -> Prop :=
| run_returned r s : submit_run frame pipelines (Returned r) s [] [] r s
| run_wait request rest s s1 result pc s2 waits pushed r s3 :
    interference s s1 ->
    submit_wake frame pipelines result request rest s1 = inr (pc, s2) ->
    submit_run frame pipelines pc s2 waits pushed r s3 ->
    submit_run frame pipelines (InWait request rest) s
      (result :: waits) (pushed_by s1 s2 ++ pushed) r s3.

Inductive ProcessPipelineRequests (frame : Z)
    (requests : list HwlPipelineRequest) (pipelines : list EmulatedPipeline)
  : Proc -> list cv_status -> list PendingRequest -> status_t -> Proc -> Prop :=
| call_run s pc s1 waits pushed r s' :
    submit_requests frame pipelines requests s = inr (pc, s1) ->
    submit_run frame pipelines pc s1 waits pushed r s' ->
    ProcessPipelineRequests frame requests pipelines s waits
      (pushed_by s s1 ++ pushed) r s'.

End Calls.

End Processor.

Arguments camera_id_ {E} _.
Arguments pending_requests_ {E} _.
Arguments last_settings_ {E} _.
Arguments world {E} _.
Arguments trace {E} _.

(** ** Concrete collaborators for examples

    The world is trivial; the flags say whether locks, fence imports and
    fence waits succeed.  [AlignTo] rounds up to a multiple, [kPipelineDepth]
    is two. *)
Definition example_AlignTo (value alignment : Z) : Z :=
  let delta := (value mod alignment)%Z in
  if (delta =? 0)%Z then value else (value + (alignment - delta))%Z.

Definition example_collaborators (lock_ok fence_ok wait_ok : bool)
  : Collaborators :=
  {| World := unit;
     kPipelineDepth := 2;
     kMaxFrameDuration := 30000000000%Z;
     initial_acquire_fence_fd := (-1)%Z;
     initial_plane := SinglePlane 0 0 0;
     AlignTo := example_AlignTo;
     OverrideFormat := fun f => f;
     importer_lock := fun _ _ _ w => (if lock_ok then 4096%Z else 0%Z, w);
     importer_lockYCbCr := fun _ _ _ w =>
       (if lock_ok
        then {| y := 4096; cb_ptr := 8192; cr_ptr := 8193;
                yStride := 640; cStride := 640; chromaStep := 2 |}
        else {| y := 0; cb_ptr := 0; cr_ptr := 0;
                yStride := 0; cStride := 0; chromaStep := 0 |}, w)%Z;
     importer_importFence := fun h w =>
       (if fence_ok then (true, h) else (false, (-1)%Z), w);
     sync_wait := fun _ _ w => (if wait_ok then 0%Z else (-1)%Z, w);
     InitializeSensorSettings := fun blob w =>
       (match blob with
        | Some (MetadataBlob c) => (OK, SettingsValue c)
        | None => (BAD_VALUE, SettingsValue 0)
        end, w);
     InitializeResult := fun p f w => (ResultValue f, w);
     sensor_Flush := fun w => (OK, w);
     sensor_WaitForVSync := fun _ w => (true, w) |}.

Definition example_stream (fmt space w h size : Z) : EmulatedStream :=
  {| width := w; height := h; override_format := fmt;
     override_data_space := space; buffer_size := size;
     producer_usage := 0%Z; is_input := false |}.

Definition example_callback : HwlPipelineCallback := {| notify := Some 7 |}.

Definition example_buffer (frame fd : Z) (cbk : HwlPipelineCallback)
  : SensorBuffer :=
  {| sb_width := 640; sb_height := 480; frame_number := frame;
     pipeline_id := 0; camera_id := 0; format := HAL_PIXEL_FORMAT_RAW16;
     dataSpace := 0;
     stream_buffer := {| stream_id := 0; buffer_id := 0; buffer := 1;
                         status := kError; acquire_fence := None |};
     callback := cbk; acquire_fence_fd := fd; sb_is_input := false;
     plane := SinglePlane 4096 1280 819200 |}%Z.

Definition example_stream_buffer (fence : option Z) : StreamBuffer :=
  {| stream_id := 0; buffer_id := 0; buffer := 1; status := kOk;
     acquire_fence := fence |}%Z.

(** A pipeline with one 640 by 480 stream of the given format, stream 0. *)
Definition example_pipeline (fmt : Z) : EmulatedPipeline :=
  {| cb := example_callback;
     streams := {[ 0%Z := example_stream fmt 0 640 480 0 ]} |}.

Definition example_request (blob : option HalCameraMetadata)
    (outputs : list StreamBuffer) : HwlPipelineRequest :=
  {| req_pipeline_id := 0; req_settings := blob;
     req_input_buffers := []; req_output_buffers := outputs |}.

Definition example_pending (blob : option HalCameraMetadata)
    (outputs : option Buffers) : PendingRequest :=
  {| settings := blob; input_buffers := None; output_buffers := outputs |}.

(** A processor of camera 0 with the given queue, no remembered settings and
    an empty trace. *)
Definition example_proc (lock_ok fence_ok wait_ok : bool)
    (queue : list PendingRequest)
  : Proc (example_collaborators lock_ok fence_ok wait_ok) :=
  {| camera_id_ := 0%Z; pending_requests_ := queue; last_settings_ := None;
     world := tt : World (example_collaborators lock_ok fence_ok wait_ok);
     trace := [] |}.

(** The state a computation leaves, or the given state when it faults. *)
Definition state_after {E : Collaborators} {A : Type}
    (r : Fault + (A * Proc E)) (otherwise : Proc E) : Proc E :=
  match r with
  | inr (_, s) => s
  | inl _ => otherwise
  end.

(** Two requests submitted in one call to an idle processor, the first with
    settings and the second without, then two iterations of the worker. *)
Definition example_run_requests : list HwlPipelineRequest :=
  [example_request (Some (MetadataBlob 11)) [example_stream_buffer None];
   example_request None [example_stream_buffer None]].

Definition example_run_1 : Proc (example_collaborators true true true) :=
  Eval vm_compute in
    state_after
      (submit_requests (example_collaborators true true true) 1%Z
         [example_pipeline HAL_PIXEL_FORMAT_RAW16] example_run_requests
         (example_proc true true true []))
      (example_proc true true true []).

Definition example_run_2 : Proc (example_collaborators true true true) :=
  Eval vm_compute in
    state_after
      (RequestProcessorLoop_body (example_collaborators true true true)
         example_run_1)
      example_run_1.

Definition example_run_3 : Proc (example_collaborators true true true) :=
  Eval vm_compute in
    state_after
      (RequestProcessorLoop_body (example_collaborators true true true)
         example_run_2)
      example_run_2.

Definition example_run_labels : list Label :=
  [LPush (pushed_by _ (example_proc true true true []) example_run_1);
   LTake (head (pending_requests_ example_run_1));
   LTake (head (pending_requests_ example_run_2))].

(** A queue of two requests, then a call with two more: the first is pushed,
    the second finds three requests queued. *)
Definition example_busy : Proc (example_collaborators true true true) :=
  example_proc true true true
    [example_pending None (Some [example_buffer 1 (-1) example_callback]);
     example_pending None (Some [example_buffer 2 (-1) example_callback])].

Definition example_blocked : Proc (example_collaborators true true true) :=
  Eval vm_compute in
    state_after
      (submit_requests (example_collaborators true true true) 3%Z
         [example_pipeline HAL_PIXEL_FORMAT_RAW16] example_run_requests
         example_busy)
      example_busy.

(** ** Statements of the specification

    Definitions that follow the words of the specification, to be compared
    with the code. *)

Section Statements.

Variable E : Collaborators.

(** The table of strides and sizes as the specification words it, over
    [uint32_t] products; [None] is the unsupported format. *)
Definition format_table (stream : EmulatedStream) : option (Z * Z) :=
  let w := width stream in
  let h := height stream in
  let fmt := override_format stream in
  let space := override_data_space stream in
  if bool_decide (fmt = HAL_PIXEL_FORMAT_RAW16) then
    Some (mul32 w 2, mul32 (mul32 w 2) w)
  else if bool_decide (fmt = HAL_PIXEL_FORMAT_RGBA_8888) then
    Some (mul32 w 4, mul32 (mul32 w 4) w)
  else if bool_decide (fmt = HAL_PIXEL_FORMAT_RGB_888) then
    Some (mul32 w 3, mul32 (mul32 w 3) w)
  else if bool_decide (fmt = HAL_PIXEL_FORMAT_Y16 ∧ space = HAL_DATASPACE_DEPTH) then
    let stride := AlignTo E (mul32 (AlignTo E w 2) 2) 16 in
    Some (stride, mul32 stride (AlignTo E h 2))
  else if bool_decide (fmt = HAL_PIXEL_FORMAT_BLOB ∧ space = HAL_DATASPACE_V0_JFIF) then
    Some (buffer_size stream, buffer_size stream)
  else None.

(** What [AcquireBuffers] forwards: a record without a fence descriptor and
    a record whose wait succeeded are forwarded, in order and unchanged; a
    record whose wait failed is left out.  The waits happen in list order. *)
Inductive forwarded : World E -> Buffers -> Buffers -> World E -> Prop :=
| forwarded_nil w : forwarded w [] [] w
| forwarded_no_fence b bs acq w w' :
    (acquire_fence_fd b < 0)%Z ->
    forwarded w bs acq w' ->
    forwarded w (b :: bs) (b :: acq) w'
| forwarded_wait_ok b bs acq w w1 w' :
    (0 <= acquire_fence_fd b)%Z ->
    sync_wait E (acquire_fence_fd b) (ns2ms (kMaxFrameDuration E)) w = (OK, w1) ->
    forwarded w1 bs acq w' ->
    forwarded w (b :: bs) (b :: acq) w'
| forwarded_wait_failed b bs acq w r w1 w' :
    (0 <= acquire_fence_fd b)%Z ->
    sync_wait E (acquire_fence_fd b) (ns2ms (kMaxFrameDuration E)) w = (r, w1) ->
    r <> OK ->
    forwarded w1 bs acq w' ->
    forwarded w (b :: bs) acq w'.

(** The blob the worker hands to [InitializeSensorSettings] for a request. *)
Definition effective_settings (last : option HalCameraMetadata)
    (request : PendingRequest) : option HalCameraMetadata :=
  match settings request with
  | Some m => Some m
  | None => last
  end.

(** The most recent explicit settings among the requests the worker took. *)
Definition last_explicit (taken : list PendingRequest)
  : option HalCameraMetadata :=
  last (omap settings taken).

(** The blobs handed to [InitializeSensorSettings], in call order. *)
Definition settings_calls (tr : list Event) : list (option HalCameraMetadata) :=
  omap (fun ev => match ev with
                  | EvInitializeSensorSettings blob => Some blob
                  | _ => None
                  end) tr.

(** The dispatches to the sensor, in call order: input and output buffers. *)
Definition dispatches (tr : list Event)
  : list (option Buffers * option Buffers) :=
  omap (fun ev => match ev with
                  | EvSetCurrentRequest _ _ inputs outputs =>
                    Some (inputs, outputs)
                  | _ => None
                  end) tr.

Definition notifications (tr : list Event) : list (nat * Z * NotifyMessage) :=
  omap (fun ev => match ev with
                  | EvNotify callee pipeline msg => Some (callee, pipeline, msg)
                  | _ => None
                  end) tr.

(** A dispatch carries buffers of the request it was made for: its outputs
    are acquired from the request's output buffers, its inputs from the
    request's input buffers. *)
Definition dispatch_of (request : PendingRequest)
    (d : option Buffers * option Buffers) : Prop :=
  (exists outs obs, d.2 = Some outs /\ outs <> [] /\
                    output_buffers request = Some obs /\ sublist outs obs) /\
  match d.1 with
  | None => True
  | Some ins => exists ibs, input_buffers request = Some ibs /\ sublist ins ibs
  end.

(** The request has a first output buffer. *)
Definition has_output (request : PendingRequest) : bool :=
  match output_buffers request with
  | Some (_ :: _) => true
  | _ => false
  end.

(** The first output buffer of the request names a callee to notify. *)
Definition has_notify (request : PendingRequest) : bool :=
  match output_buffers request with
  | Some (b :: _) => bool_decide (notify (callback b) <> None)
  | _ => false
  end.

(** The notifications of a flush: one request error for every queued request
    whose first output buffer names a callee, in queue order, with the frame
    number and pipeline of that buffer. *)
Definition flush_notification (request : PendingRequest) : list Event :=
  match output_buffers request with
  | Some (b :: _) =>
    match notify (callback b) with
    | Some callee =>
      [EvNotify callee (pipeline_id b)
         (error_message (frame_number b) kErrorRequest)]
    | None => []
    end
  | _ => []
  end.

Definition flush_notifications (queue : list PendingRequest) : list Event :=
  concat (map flush_notification queue).

(** What a segment of [ProcessPipelineRequests] does between two points
    where it holds the mutex: it pushes resolved copies of a prefix of the
    requests it was given, in order, at the back of the queue, and touches
    neither the remembered settings nor the trace.  It stops before a request
    when the queue is over the pipeline depth or the pipeline id is invalid. *)
Definition segment_post (pipelines : list EmulatedPipeline)
    (requests : list HwlPipelineRequest) (s : Proc E) (pc : SubmitPC)
    (s' : Proc E) : Prop :=
  exists pushed,
    pending_requests_ s' = pending_requests_ s ++ pushed /\
    last_settings_ s' = last_settings_ s /\
    trace s' = trace s /\
    camera_id_ s' = camera_id_ s /\
    Forall2 (fun p r => settings p = req_settings r) pushed
      (take (length pushed) requests) /\
    length pushed <= length requests /\
    length (pending_requests_ s') <=
      Nat.max (length (pending_requests_ s)) (kPipelineDepth E + 1) /\
    match pc with
    | InWait request rest =>
      drop (length pushed) requests = request :: rest /\
      kPipelineDepth E < length (pending_requests_ s')
    | Returned r =>
      (r = OK /\ length pushed = length requests) \/
      (r = BAD_VALUE /\
       exists request rest,
         drop (length pushed) requests = request :: rest /\
         length pipelines <= req_pipeline_id request)
    end.

(** The requests a blocked or returned call has not pushed yet. *)
Definition remaining (pc : SubmitPC) : list HwlPipelineRequest :=
  match pc with
  | InWait request rest => request :: rest
  | Returned _ => []
  end.

End Statements.

(** ** The loop of the worker thread

    [RequestProcessorLoop] runs iterations back to back, with no other thread
    taking the mutex in between.  [flags] are the values of [processor_done_]
    read at the top of the iterations; the result tells whether the loop was
    seen to exit, or the reads ran out while it was still running. *)
Section WorkerThread.

Variable E : Collaborators.

Fixpoint RequestProcessorLoop (flags : list bool) : M (Proc E) bool :=
  match flags with
  | [] => ret false
  | true :: _ => ret true
  | false :: later =>
    let* _ := RequestProcessorLoop_body E in
    let* _ :=
      in_world E (call (sensor_WaitForVSync E (kMaxFrameDuration E))) in
    RequestProcessorLoop later
  end.

(** The stream a buffer is resolved against: an input stream has its format
    remapped. *)
Definition resolved_stream (stream : EmulatedStream) : EmulatedStream :=
  if is_input stream
  then with_override_format stream (OverrideFormat E (override_format stream))
  else stream.

(** The record [CreateSensorBuffer] fills in before it locks the buffer. *)
Definition fresh_buffer (cam frame : Z) (emulated_stream : EmulatedStream)
    (pipeline : Z) (cbk : HwlPipelineCallback) (sbuf : StreamBuffer)
  : SensorBuffer :=
  let stream := resolved_stream emulated_stream in
  {| sb_width := width stream; sb_height := height stream;
     frame_number := frame; pipeline_id := pipeline;
     camera_id := cam; format := override_format stream;
     dataSpace := override_data_space stream;
     stream_buffer := with_status sbuf kError; callback := cbk;
     acquire_fence_fd := initial_acquire_fence_fd E;
     sb_is_input := is_input stream; plane := initial_plane E |}.

(** The pipeline id of the request is within the pipeline table. *)
Definition valid_pipeline (pipelines : list EmulatedPipeline)
    (request : HwlPipelineRequest) : bool :=
  req_pipeline_id request <? length pipelines.





(** [p] is what [ProcessPipelineRequests] pushes for [q]: a clone of the
    settings, the output buffers resolved against the streams of the
    request's pipeline, then the input buffers resolved likewise. *)
Definition resolved_copy (frame : Z) (pipelines : list EmulatedPipeline)
    (cam : Z) (p : PendingRequest) (q : HwlPipelineRequest) : Prop :=
  settings p = Clone (req_settings q) /\
  exists pipeline w1 w2 w3,
    pipelines !! req_pipeline_id q = Some pipeline /\
    CreateSensorBuffers E cam frame (req_output_buffers q) (streams pipeline)
      (Z.of_nat (req_pipeline_id q)) (cb pipeline) w1
    = inr (output_buffers p, w2) /\
    CreateSensorBuffers E cam frame (req_input_buffers q) (streams pipeline)
      (Z.of_nat (req_pipeline_id q)) (cb pipeline) w2
    = inr (input_buffers p, w3).

End WorkerThread.

(** A request without settings at the head of the queue of a processor that
    has none remembered, and a request whose only output buffer waits on a
    fence. *)
Definition example_run_2_unset : Proc (example_collaborators true true true) :=
  example_proc true true true
    [example_pending None (Some [example_buffer 1 (-1) example_callback])].

Definition example_fenced : Proc (example_collaborators true true false) :=
  example_proc true true false
    [example_pending (Some (MetadataBlob 11))
       (Some [example_buffer 1 5 example_callback])].

(** A request with settings is submitted and flushed before the worker runs;
    then a request without settings is submitted and the worker takes it. *)
Definition example_flushed_1 : Proc (example_collaborators true true true) :=
  Eval vm_compute in
    state_after
      (submit_requests (example_collaborators true true true) 1%Z
         [example_pipeline HAL_PIXEL_FORMAT_RAW16]
         [example_request (Some (MetadataBlob 11)) [example_stream_buffer None]]
         (example_proc true true true []))
      (example_proc true true true []).

Definition example_flushed_2 : Proc (example_collaborators true true true) :=
  Eval vm_compute in
    state_after (Flush (example_collaborators true true true) example_flushed_1)
      example_flushed_1.

Definition example_flushed_3 : Proc (example_collaborators true true true) :=
  Eval vm_compute in
    state_after
      (submit_requests (example_collaborators true true true) 2%Z
         [example_pipeline HAL_PIXEL_FORMAT_RAW16]
         [example_request None [example_stream_buffer None]]
         example_flushed_2)
      example_flushed_2.

Definition example_flushed_4 : Proc (example_collaborators true true true) :=
  Eval vm_compute in
    state_after
      (RequestProcessorLoop_body (example_collaborators true true true)
         example_flushed_3)
      example_flushed_3.

Definition example_flushed_labels : list Label :=
  [LPush (pushed_by _ (example_proc true true true []) example_flushed_1);
   LDrain (pending_requests_ example_flushed_1);
   LPush (pushed_by _ example_flushed_2 example_flushed_3);
   LTake (head (pending_requests_ example_flushed_3))].

(** * Properties *)

(** ** Running the monad *)

Lemma bind_inr {S A B : Type} (m : M S A) (k : A -> M S B) s b s' :
  bind m k s = inr (b, s') <->
  exists a s1, m s = inr (a, s1) /\ k a s1 = inr (b, s').
Proof.
  unfold bind. split.
  - destruct (m s) as [f | [a s1]]; [done |]. intros H. by exists a, s1.
  - intros (a & s1 & -> & H). done.
Qed.

Lemma lift_fault_inr {S A : Type} (r : Fault + A) (s s' : S) a :
  lift_fault r s = inr (a, s') <-> r = inr a /\ s' = s.
Proof.
  destruct r as [f | a0]; cbn; unfold raise, ret; split.
  - done.
  - intros [? _]. done.
  - intros [= -> ->]. done.
  - intros [[= ->] ->]. done.
Qed.

(** ** The format table *)

Section FormatTable.

Variable E : Collaborators.

Lemma mul32_exact (a b : Z) : (0 <= a * b < 2 ^ 32)%Z -> mul32 a b = (a * b)%Z.
Proof. intros H. unfold mul32, wrap32. by apply Z.mod_small. Qed.

Lemma GetBufferSizeAndStride_table (stream : EmulatedStream) (s0 t0 : Z) :
  GetBufferSizeAndStride E stream (Some s0) (Some t0) =
  match format_table E stream with
  | Some (stride, size) => inr (OK, Some size, Some stride)
  | None => inr (BAD_VALUE, Some s0, Some t0)
  end.
Proof.
  unfold GetBufferSizeAndStride, format_table.
  unfold HAL_PIXEL_FORMAT_RAW16, HAL_PIXEL_FORMAT_RGBA_8888,
    HAL_PIXEL_FORMAT_RGB_888, HAL_PIXEL_FORMAT_Y16, HAL_PIXEL_FORMAT_BLOB,
    HAL_DATASPACE_DEPTH, HAL_DATASPACE_V0_JFIF.
  repeat case_bool_decide;
    repeat match goal with
           | |- context [(?a =? ?b)%Z] => destruct (Z.eqb_spec a b)
           end;
    try reflexivity; try lia; exfalso; intuition lia.
Qed.





End FormatTable.

(** ** The wait on acquire fences *)

Section Acquire.

Variable E : Collaborators.

Lemma AcquireBuffers_loop_forwarded (bufs : Buffers) (w : World E) :
  exists acq w',
    AcquireBuffers_loop E bufs w = inr (acq, w') /\ forwarded E w bufs acq w'.
Proof.
  revert w. induction bufs as [|b bs IH]; intros w.
  - exists [], w. split; [reflexivity | constructor].
  - cbn [AcquireBuffers_loop]. unfold bind at 1.
    destruct (0 <=? acquire_fence_fd b)%Z eqn:Hfd.
    + apply Z.leb_le in Hfd. unfold call.
      destruct (sync_wait E (acquire_fence_fd b) (ns2ms (kMaxFrameDuration E)) w)
        as [r w1] eqn:Hw.
      destruct (IH w1) as (acq & w' & Hrun & Hfw).
      unfold bind. rewrite Hrun. unfold ret.
      destruct (Z.eqb_spec r OK) as [-> | Hr].
      * exists (b :: acq), w'. split; [reflexivity |].
        eapply forwarded_wait_ok; eauto.
      * exists acq, w'. split; [reflexivity |].
        eapply forwarded_wait_failed; eauto.
    + apply Z.leb_gt in Hfd. unfold ret at 1.
      destruct (IH w) as (acq & w' & Hrun & Hfw).
      unfold bind. rewrite Hrun. unfold ret. cbn.
      exists (b :: acq), w'. split; [reflexivity |].
      by apply forwarded_no_fence.
Qed.

Lemma forwarded_sublist w bufs acq w' :
  forwarded E w bufs acq w' -> sublist acq bufs.
Proof.
  induction 1; [constructor | by apply sublist_skip | by apply sublist_skip
               | by apply sublist_cons].
Qed.

Lemma forwarded_keeps_unfenced w bufs acq w' :
  forwarded E w bufs acq w' ->
  forall b, b ∈ bufs -> (acquire_fence_fd b < 0)%Z -> b ∈ acq.
Proof.
  induction 1 as [| b0 bs acq w w' Hlt _ IH | b0 bs acq w w1 w' Hge _ _ IH
                 | b0 bs acq w r w1 w' Hge _ _ _ IH]; intros b Hin Hb.
  - inversion Hin.
  - apply elem_of_cons in Hin as [-> | Hin]; [left | right; by apply IH].
  - apply elem_of_cons in Hin as [-> | Hin]; [left | right; by apply IH].
  - apply elem_of_cons in Hin as [-> | Hin]; [lia | by apply IH].
Qed.

(** C1 (amended).  On a non-empty list [AcquireBuffers] returns a list made
    of the records without a fence descriptor and of the records whose wait
    succeeded, in their order and unchanged; a record whose wait timed out or
    failed is left out of the returned list, and the records after it are
    still processed. *)
Theorem C1_AcquireBuffers_drops_failed_waits (bufs : Buffers) (w : World E) :
  bufs <> [] ->
  exists acq w',
    AcquireBuffers E (Some bufs) w = inr (Some acq, w') /\
    forwarded E w bufs acq w' /\
    sublist acq bufs /\
    (forall b, b ∈ bufs -> (acquire_fence_fd b < 0)%Z -> b ∈ acq).
Proof.
  intros Hne. destruct bufs as [|b bs]; [done |].
  destruct (AcquireBuffers_loop_forwarded (b :: bs) w) as (acq & w' & Hrun & Hfw).
  exists acq, w'. split.
  - unfold AcquireBuffers, bind. by rewrite Hrun.
  - split; [done |]. split.
    + by eapply forwarded_sublist.
    + by eapply forwarded_keeps_unfenced.
Qed.

End Acquire.

(** ** The worker iteration *)

Section Worker.

Variable E : Collaborators.

Lemma AcquireBuffers_Some_inv bufs w res w' :
  AcquireBuffers E (Some bufs) w = inr (res, w') ->
  match bufs with
  | [] => res = None /\ w' = w
  | _ :: _ => exists acq, res = Some acq /\
                          AcquireBuffers_loop E bufs w = inr (acq, w')
  end.
Proof.
  destruct bufs as [|b bs]; cbn [AcquireBuffers].
  - unfold ret. intros [= <- <-]. done.
  - unfold bind, ret.
    destruct (AcquireBuffers_loop E (b :: bs) w) as [f | [acq w1]]; [done |].
    intros [= <- <-]. by exists acq.
Qed.

Lemma body_empty (s : Proc E) :
  pending_requests_ s = [] -> RequestProcessorLoop_body E s = inr (tt, s).
Proof. intros H. unfold RequestProcessorLoop_body. by rewrite H. Qed.

(** What one iteration does on a non-empty queue, when it returns. *)
Lemma body_inv (s s' : Proc E) request rest :
  pending_requests_ s = request :: rest ->
  RequestProcessorLoop_body E s = inr (tt, s') ->
  exists b bs r st w1 outs w2,
    output_buffers request = Some (b :: bs) /\
    InitializeSensorSettings E (effective_settings (last_settings_ s) request)
      (world s) = ((r, st), w1) /\
    AcquireBuffers_loop E (b :: bs) w1 = inr (outs, w2) /\
    pending_requests_ s' = rest /\
    last_settings_ s' = effective_settings (last_settings_ s) request /\
    camera_id_ s' = camera_id_ s /\
    ((outs <> [] /\ r = OK /\
      exists result w3 inputs,
        InitializeResult E (pipeline_id b) (frame_number b) w2 = (result, w3) /\
        AcquireBuffers E (input_buffers request) w3 = inr (inputs, world s') /\
        trace s' = trace s ++
          [EvInitializeSensorSettings
             (effective_settings (last_settings_ s) request);
           EvSetCurrentRequest st result inputs (Some outs)]) \/
     ((outs = [] \/ r <> OK) /\
      exists callee,
        notify (callback b) = Some callee /\ world s' = w2 /\
        trace s' = trace s ++
          [EvInitializeSensorSettings
             (effective_settings (last_settings_ s) request);
           EvNotify callee (pipeline_id b)
             (error_message (frame_number b) kErrorResult)])).
Proof.
  intros Hq Hrun. unfold RequestProcessorLoop_body in Hrun. rewrite Hq in Hrun.
  apply bind_inr in Hrun as (b & s1 & Hb & Hrun).
  apply lift_fault_inr in Hb as [Hb ->].
  unfold first_output_buffer in Hb.
  destruct (output_buffers request) as [[|b0 bs]|] eqn:Hout; simplify_eq.
  apply bind_inr in Hrun as ([r st] & s2 & Hset & Hrun).
  destruct s as [cam q last w tr]. cbn in Hq. subst q.
  assert (Hs2 : exists w1,
             InitializeSensorSettings E (effective_settings last request) w
             = ((r, st), w1) /\
             s2 = {| camera_id_ := cam; pending_requests_ := request :: rest;
                     last_settings_ := effective_settings last request;
                     world := w1;
                     trace := tr ++ [EvInitializeSensorSettings
                                       (effective_settings last request)] |}).
  { unfold effective_settings. clear Hrun.
    destruct (settings request) as [m|];
      unfold bind, emit, in_world, call, set_last_settings, set_pending, ret,
        Clone in Hset; cbn in Hset.
    - destruct (InitializeSensorSettings E (Some m) w) as [[r0 st0] w1].
      simplify_eq. by exists w1.
    - destruct (InitializeSensorSettings E last w) as [[r0 st0] w1].
      simplify_eq. by exists w1. }
  destruct Hs2 as (w1 & Hinit & ->). clear Hset.
  apply bind_inr in Hrun as (outputs & s3 & Hacq & Hrun).
  unfold in_world in Hacq. cbn [world AcquireBuffers] in Hacq.
  destruct (AcquireBuffers_loop_forwarded E (b :: bs) w1)
    as (outs & w2 & Hloop & _).
  unfold bind in Hacq. rewrite Hloop in Hacq. unfold ret in Hacq.
  simplify_eq.
  apply bind_inr in Hrun as (nonempty & s4 & Hne & Hrun).
  exists b, bs, r, st, w1, outs, w2.
  split; [done |]. split; [done |]. split; [done |].
  apply bind_inr in Hrun as ([] & s5 & Hact & Hpop).
  unfold pop_pending, set_pending in Hpop.
  destruct (nonempty && (r =? OK)%Z) eqn:Hcond.
  - apply andb_prop in Hcond as [Hn Hr]. apply Z.eqb_eq in Hr. subst r.
    assert (outs <> [] /\ s4 = {| camera_id_ := cam;
                 pending_requests_ := request :: rest;
                 last_settings_ := effective_settings last request;
                 world := w2;
                 trace := tr ++ [EvInitializeSensorSettings
                                   (effective_settings last request)] |})
      as [Hnil ->].
    { destruct outs; unfold ret in Hne; by simplify_eq. }
    clear Hne.
    apply bind_inr in Hact as (result & s6 & Hres & Hact).
    unfold in_world, call in Hres. cbn in Hres.
    destruct (InitializeResult E (pipeline_id b) (frame_number b) w2)
      as [result' w3] eqn:Hresult.
    simplify_eq.
    apply bind_inr in Hact as (inputs & s7 & Hin & Hact).
    unfold in_world in Hin. cbn in Hin.
    destruct (AcquireBuffers E (input_buffers request) w3)
      as [f | [inputs' w4]] eqn:Hinputs; [done |].
    unfold emit in Hact. simplify_eq. cbn.
    repeat split; try done.
    left. repeat split; try done.
    exists result, w3, inputs. by rewrite <- app_assoc.
  - assert ((outs = [] \/ r <> OK) /\ s4 = {| camera_id_ := cam;
                 pending_requests_ := request :: rest;
                 last_settings_ := effective_settings last request;
                 world := w2;
                 trace := tr ++ [EvInitializeSensorSettings
                                   (effective_settings last request)] |})
      as [Hwhy ->].
    { destruct outs; unfold ret in Hne; simplify_eq; split; try done.
      - by left.
      - right. cbn in Hcond. by apply Z.eqb_neq in Hcond. }
    clear Hne.
    destruct (notify (callback b)) as [callee|] eqn:Hcb; [| done].
    unfold emit in Hact. simplify_eq. cbn.
    repeat split; try done.
    right. split; [done |]. exists callee. by rewrite <- app_assoc.
Qed.

End Worker.

(** ** Flush *)

Section FlushProperties.

Variable E : Collaborators.

Lemma Flush_loop_run (q : list PendingRequest) (s : Proc E) :
  pending_requests_ s = q ->
  forallb has_output q = true ->
  Flush_loop E q s =
  inr (tt, {| camera_id_ := camera_id_ s; pending_requests_ := [];
              last_settings_ := last_settings_ s; world := world s;
              trace := trace s ++ flush_notifications q |}).
Proof.
  revert s. induction q as [|request rest IH]; intros s Hq Hall.
  - cbn. unfold ret, flush_notifications. cbn. rewrite app_nil_r.
    destruct s; cbn in *. by subst.
  - cbn in Hall. apply andb_prop in Hall as [Hreq Hall].
    cbn [Flush_loop]. unfold has_output in Hreq.
    unfold bind, NotifyFailedRequest, first_output_buffer, bind.
    destruct (output_buffers request) as [[|b bs]|] eqn:Hout; try done.
    cbn [lift_fault]. unfold ret at 1.
    unfold flush_notifications. cbn [map concat].
    unfold flush_notification at 1. rewrite Hout.
    destruct (notify (callback b)) as [callee|];
      unfold emit, ret, pop_pending, set_pending; rewrite Hq; cbn [tail];
      rewrite IH by done; cbn; [by rewrite <- app_assoc | done].
Qed.

Lemma Flush_loop_fault (q : list PendingRequest) (s : Proc E) :
  pending_requests_ s = q ->
  forallb has_output q = false ->
  exists f, Flush_loop E q s = inl f.
Proof.
  revert s. induction q as [|request rest IH]; intros s Hq Hall; [done |].
  cbn in Hall. cbn [Flush_loop].
  unfold bind, NotifyFailedRequest, first_output_buffer, bind.
  unfold has_output in Hall.
  destruct (output_buffers request) as [[|b bs]|] eqn:Hout;
    [by eexists | | by eexists].
  cbn in Hall. cbn [lift_fault]. unfold ret at 1.
  destruct (notify (callback b)) as [callee|];
    unfold emit, ret, pop_pending, set_pending; rewrite Hq; cbn [tail];
    apply IH; done.
Qed.

Lemma Flush_run (s : Proc E) :
  forallb has_output (pending_requests_ s) = true ->
  Flush E s =
  inr ((sensor_Flush E (world s)).1,
       {| camera_id_ := camera_id_ s; pending_requests_ := [];
          last_settings_ := last_settings_ s;
          world := (sensor_Flush E (world s)).2;
          trace := trace s ++
                   EvSensorFlush :: flush_notifications (pending_requests_ s) |}).
Proof.
  intros Hall. unfold Flush, bind, emit, in_world, call. cbn.
  destruct (sensor_Flush E (world s)) as [r w1]. cbn.
  rewrite Flush_loop_run by done. cbn. unfold ret.
  by rewrite <- app_assoc.
Qed.

Lemma Flush_fault (s : Proc E) :
  forallb has_output (pending_requests_ s) = false ->
  exists f, Flush E s = inl f.
Proof.
  intros Hall. unfold Flush, bind, emit, in_world, call. cbn.
  destruct (sensor_Flush E (world s)) as [r w1]. cbn.
  edestruct (Flush_loop_fault (pending_requests_ s)) as [f Hf]; [| done |].
  2: { rewrite Hf. by exists f. }
  done.
Qed.

Lemma Flush_inv (s s' : Proc E) r :
  Flush E s = inr (r, s') ->
  forallb has_output (pending_requests_ s) = true /\
  r = (sensor_Flush E (world s)).1 /\
  s' = {| camera_id_ := camera_id_ s; pending_requests_ := [];
          last_settings_ := last_settings_ s;
          world := (sensor_Flush E (world s)).2;
          trace := trace s ++
                   EvSensorFlush :: flush_notifications (pending_requests_ s) |}.
Proof.
  intros Hrun.
  destruct (forallb has_output (pending_requests_ s)) eqn:Hall.
  - rewrite Flush_run in Hrun by done. by simplify_eq.
  - destruct (Flush_fault s Hall) as [f Hf]. congruence.
Qed.

Lemma flush_notifications_length (q : list PendingRequest) :
  forallb has_notify q = true ->
  length (flush_notifications q) = length q.
Proof.
  induction q as [|request rest IH]; [done |].
  cbn. intros [Hreq Hall]%andb_prop.
  unfold flush_notifications in *. cbn [map concat].
  rewrite length_app, IH by done.
  unfold has_notify in Hreq. unfold flush_notification.
  destruct (output_buffers request) as [[|b bs]|]; try done.
  destruct (notify (callback b)); [done |].
  by apply bool_decide_eq_true in Hreq.
Qed.

(** C6 (amended).  When every queued request has a first output buffer,
    [Flush] first asks the sensor to flush and returns the sensor's status,
    leaves the queue empty, and emits after the sensor's flush one request
    error per queued request whose first output buffer names a callee to
    notify, in queue order, with that buffer's frame number, pipeline and
    callee; a request whose callee is unset gets none.  With N queued
    requests that all name a callee, exactly N notifications are emitted. *)
Theorem C6_Flush_notifies_queued_requests (s : Proc E) :
  forallb has_output (pending_requests_ s) = true ->
  exists s',
    Flush E s = inr ((sensor_Flush E (world s)).1, s') /\
    pending_requests_ s' = [] /\
    world s' = (sensor_Flush E (world s)).2 /\
    last_settings_ s' = last_settings_ s /\
    trace s' = trace s ++
               EvSensorFlush :: flush_notifications (pending_requests_ s) /\
    (forallb has_notify (pending_requests_ s) = true ->
     length (flush_notifications (pending_requests_ s)) =
     length (pending_requests_ s)).
Proof.
  intros Hall. eexists. split; [by apply Flush_run |]. cbn.
  repeat split. apply flush_notifications_length.
Qed.

End FlushProperties.

(** ** Submission *)

Section Submission.

Variable E : Collaborators.

Lemma in_world_inr {A : Type} (m : M (World E) A) (s s' : Proc E) a :
  in_world E m s = inr (a, s') ->
  pending_requests_ s' = pending_requests_ s /\
  last_settings_ s' = last_settings_ s /\
  trace s' = trace s /\
  camera_id_ s' = camera_id_ s /\
  m (world s) = inr (a, world s').
Proof.
  unfold in_world. destruct (m (world s)) as [f | [a0 w]]; [done |].
  intros [= <- <-]. done.
Qed.

Lemma push_request_inv frame pipelines request (s s' : Proc E) :
  push_request E frame pipelines request s = inr (tt, s') ->
  exists p,
    pending_requests_ s' = pending_requests_ s ++ [p] /\
    settings p = req_settings request /\
    last_settings_ s' = last_settings_ s /\
    trace s' = trace s /\
    camera_id_ s' = camera_id_ s.
Proof.
  unfold push_request.
  destruct (pipelines !! req_pipeline_id request) as [pipeline|]; [| done].
  intros Hrun.
  apply bind_inr in Hrun as (cam & s1 & Hcam & Hrun). simplify_eq.
  apply bind_inr in Hrun as (outputs & s2 & Hout & Hrun).
  apply in_world_inr in Hout as (Hq2 & Hl2 & Ht2 & Hc2 & _).
  apply bind_inr in Hrun as (inputs & s3 & Hin & Hrun).
  apply in_world_inr in Hin as (Hq3 & Hl3 & Ht3 & Hc3 & _).
  unfold push_pending, set_pending in Hrun. simplify_eq. cbn.
  eexists. split; [by rewrite Hq3, Hq2 |].
  cbn. unfold Clone. repeat split; congruence.
Qed.

Lemma segment_post_push pipelines request rest (s s1 s' : Proc E) p pc :
  pending_requests_ s1 = pending_requests_ s ++ [p] ->
  settings p = req_settings request ->
  last_settings_ s1 = last_settings_ s ->
  trace s1 = trace s ->
  camera_id_ s1 = camera_id_ s ->
  length (pending_requests_ s) <= kPipelineDepth E ->
  segment_post E pipelines rest s1 pc s' ->
  segment_post E pipelines (request :: rest) s pc s'.
Proof.
  intros Hq Hp Hl Ht Hc Hlen (pushed & Hq' & Hl' & Ht' & Hc' & Hall & Hn & Hb & Hpc).
  exists (p :: pushed).
  rewrite Hq, <- app_assoc in Hq'. cbn in Hq'.
  rewrite Hq, length_app in Hb. cbn in Hb.
  split; [done |]. split; [congruence |]. split; [congruence |].
  split; [congruence |]. cbn [length take].
  split; [by constructor |]. split; [lia |]. split; [lia |].
  destruct pc as [request' rest' | r]; cbn [drop]; [done |].
  destruct Hpc as [[-> Hpc] | Hpc]; [left | right]; [by rewrite Hpc | done].
Qed.

Lemma segment_post_stop pipelines requests (s : Proc E) pc :
  match pc with
  | InWait request rest =>
    requests = request :: rest /\
    kPipelineDepth E < length (pending_requests_ s)
  | Returned r =>
    (r = OK /\ requests = []) \/
    (r = BAD_VALUE /\
     exists request rest,
       requests = request :: rest /\
       length pipelines <= req_pipeline_id request)
  end ->
  segment_post E pipelines requests s pc s.
Proof.
  intros Hpc. exists []. rewrite app_nil_r. cbn.
  split; [done |]. split; [done |]. split; [done |]. split; [done |].
  split; [constructor |]. split; [lia |]. split; [lia |].
  destruct pc as [request rest | r]; [done |].
  destruct Hpc as [[-> ->] | Hbad]; [by left | by right].
Qed.

Lemma submit_requests_post frame pipelines requests (s s' : Proc E) pc :
  submit_requests E frame pipelines requests s = inr (pc, s') ->
  segment_post E pipelines requests s pc s'.
Proof.
  revert s. induction requests as [|request rest IH]; intros s Hrun.
  - cbn in Hrun. unfold ret in Hrun. simplify_eq.
    apply segment_post_stop. by left.
  - cbn [submit_requests] in Hrun.
    destruct (Nat.leb_spec (length pipelines) (req_pipeline_id request))
      as [Hbad | Hok].
    + unfold ret in Hrun. simplify_eq. apply segment_post_stop.
      right. split; [done |]. by exists request, rest.
    + unfold wait_or_push in Hrun.
      destruct (Nat.ltb_spec (kPipelineDepth E) (length (pending_requests_ s)))
        as [Hfull | Hroom].
      * simplify_eq. by apply segment_post_stop.
      * apply bind_inr in Hrun as ([] & s1 & Hpush & Hrun).
        apply push_request_inv in Hpush as (p & Hq & Hp & Hl & Ht & Hc).
        eapply segment_post_push; eauto.
Qed.

Lemma submit_wake_post frame pipelines result request rest (s s' : Proc E) pc :
  submit_wake E frame pipelines result request rest s = inr (pc, s') ->
  match result with
  | timeout => pc = Returned TIMED_OUT /\ s' = s
  | no_timeout => segment_post E pipelines (request :: rest) s pc s'
  end.
Proof.
  destruct result; cbn [submit_wake]; intros Hrun.
  - unfold wait_or_push in Hrun.
    destruct (Nat.ltb_spec (kPipelineDepth E) (length (pending_requests_ s)))
      as [Hfull | Hroom].
    + simplify_eq. by apply segment_post_stop.
    + apply bind_inr in Hrun as ([] & s1 & Hpush & Hrun).
      apply push_request_inv in Hpush as (p & Hq & Hp & Hl & Ht & Hc).
      apply submit_requests_post in Hrun.
      eapply segment_post_push; eauto.
  - unfold ret in Hrun. by simplify_eq.
Qed.

Lemma segment_post_pushed pipelines requests (s s' : Proc E) pc :
  segment_post E pipelines requests s pc s' ->
  pending_requests_ s' = pending_requests_ s ++ pushed_by E s s'.
Proof.
  intros (pushed & Hq & _). unfold pushed_by.
  by rewrite Hq, drop_app_length.
Qed.

End Submission.

(** ** Interleaved executions *)

Section Executions.

Variable E : Collaborators.

Lemma AcquireBuffers_sublist bufs (w w' : World E) acq :
  AcquireBuffers E bufs w = inr (Some acq, w') ->
  exists bs, bufs = Some bs /\ sublist acq bs.
Proof.
  destruct bufs as [bs|]; [| done].
  intros Hrun. exists bs. split; [done |].
  apply AcquireBuffers_Some_inv in Hrun.
  destruct bs as [|b bs]; [by destruct Hrun |].
  destruct Hrun as (acq' & [= <-] & Hloop).
  destruct (AcquireBuffers_loop_forwarded E (b :: bs) w) as (a & w1 & Ha & Hfw).
  rewrite Hloop in Ha. simplify_eq. by eapply forwarded_sublist.
Qed.

(** What a step does to the queue, the remembered settings and the trace. *)
Lemma step_inv (s s' : Proc E) l :
  step E s l s' ->
  match l with
  | LPush pushed =>
    pending_requests_ s' = pending_requests_ s ++ pushed /\
    length (pending_requests_ s') <=
      Nat.max (length (pending_requests_ s)) (kPipelineDepth E + 1) /\
    last_settings_ s' = last_settings_ s /\ trace s' = trace s
  | LTake None => pending_requests_ s = [] /\ s' = s
  | LTake (Some request) =>
    pending_requests_ s = request :: pending_requests_ s' /\
    last_settings_ s' = effective_settings (last_settings_ s) request /\
    exists ev,
      trace s' = trace s ++
        [EvInitializeSensorSettings
           (effective_settings (last_settings_ s) request); ev] /\
      settings_calls [ev] = [] /\
      (dispatches [ev] = [] \/
       exists d, dispatches [ev] = [d] /\ dispatch_of request d)
  | LDrain drained =>
    drained = pending_requests_ s /\ pending_requests_ s' = [] /\
    last_settings_ s' = last_settings_ s /\
    trace s' = trace s ++ EvSensorFlush :: flush_notifications drained
  | LVSync =>
    pending_requests_ s' = pending_requests_ s /\
    last_settings_ s' = last_settings_ s /\ trace s' = trace s
  end.
Proof.
  intros Hstep.
  destruct Hstep as [frame pipelines requests s pc s' Hrun
                    | frame pipelines result request rest s pc s' Hrun
                    | s s' Hrun | s r s' Hrun | s b w Hw].
  - apply submit_requests_post in Hrun.
    pose proof (segment_post_pushed E _ _ _ _ _ Hrun) as Hq.
    destruct Hrun as (pushed & _ & Hl & Ht & _ & _ & _ & Hb & _). done.
  - apply submit_wake_post in Hrun. destruct result.
    + pose proof (segment_post_pushed E _ _ _ _ _ Hrun) as Hq.
      destruct Hrun as (pushed & _ & Hl & Ht & _ & _ & _ & Hb & _). done.
    + destruct Hrun as [_ ->]. unfold pushed_by.
      rewrite drop_all, app_nil_r. repeat split; lia.
  - destruct (pending_requests_ s) as [|request rest] eqn:Hq; cbn [head].
    + rewrite body_empty in Hrun by done. by simplify_eq.
    + destruct (body_inv E s s' request rest Hq Hrun)
        as (b & bs & r & st & w1 & outs & w2 & Hout & Hinit & Hacq & Hq' & Hl
            & Hc & Hcases).
      split; [by rewrite Hq' |]. split; [done |].
      destruct Hcases as [(Hne & -> & result & w3 & inputs & Hres & Hin & Ht)
                         | (Hwhy & callee & Hcb & Hw & Ht)].
      * eexists. split; [exact Ht |]. split; [done |]. right.
        eexists. split; [done |]. split; cbn.
        -- exists outs, (b :: bs). repeat split; try done.
           destruct (AcquireBuffers_loop_forwarded E (b :: bs) w1)
             as (a & w & Ha & Hfw).
           rewrite Hacq in Ha. simplify_eq. by eapply forwarded_sublist.
        -- destruct inputs as [ins|]; [| done].
           by apply AcquireBuffers_sublist in Hin.
      * eexists. split; [exact Ht |]. split; [done |]. by left.
  - apply Flush_inv in Hrun as (_ & _ & ->). done.
  - done.
Qed.

Lemma pushes_snoc ls l :
  pushes (ls ++ [l]) = pushes ls ++ match l with LPush p => p | _ => [] end.
Proof.
  unfold pushes. rewrite map_app, concat_app. cbn. by rewrite app_nil_r.
Qed.

Lemma worker_takes_snoc ls l :
  worker_takes (ls ++ [l]) =
  worker_takes ls ++ match l with LTake (Some r) => [r] | _ => [] end.
Proof.
  unfold worker_takes. rewrite map_app, concat_app. cbn. by rewrite app_nil_r.
Qed.

Lemma removals_snoc ls l :
  removals (ls ++ [l]) =
  removals ls ++ match l with
                 | LTake (Some r) => [r]
                 | LDrain d => d
                 | _ => []
                 end.
Proof.
  unfold removals. rewrite map_app, concat_app. cbn. by rewrite app_nil_r.
Qed.

Lemma worker_takes_removals ls : sublist (worker_takes ls) (removals ls).
Proof.
  induction ls as [|l ls IH]; [constructor |].
  unfold worker_takes, removals in *. cbn [map concat].
  apply sublist_app; [| done].
  destruct l as [p | [r|] | d |]; try done; apply sublist_nil_l.
Qed.

(** The queue is what was pushed and not yet removed, in the order of the
    pushes. *)
Lemma exec_queue (s0 s : Proc E) ls :
  exec E s0 ls s ->
  pending_requests_ s0 ++ pushes ls = removals ls ++ pending_requests_ s.
Proof.
  induction 1 as [s | s ls s1 l s2 Hexec IH Hstep].
  - cbn. by rewrite app_nil_r.
  - rewrite pushes_snoc, removals_snoc, app_assoc, IH, <- !app_assoc.
    f_equal. apply step_inv in Hstep.
    destruct l as [p | [r|] | d |].
    + destruct Hstep as [Hq _]. by rewrite Hq.
    + destruct Hstep as [Hq _]. by rewrite Hq, app_nil_r.
    + destruct Hstep as [Hq Hs]. by rewrite Hs, Hq.
    + destruct Hstep as (Hd & Hq & _). by rewrite Hd, Hq, app_nil_r.
    + destruct Hstep as [Hq _]. by rewrite Hq, app_nil_r.
Qed.

Lemma exec_bound (s0 s : Proc E) ls :
  exec E s0 ls s ->
  length (pending_requests_ s0) <= kPipelineDepth E + 1 ->
  length (pending_requests_ s) <= kPipelineDepth E + 1.
Proof.
  induction 1 as [s | s ls s1 l s2 Hexec IH Hstep]; [done |].
  intros H0. specialize (IH H0). apply step_inv in Hstep.
  destruct l as [p | [r|] | d |].
  - destruct Hstep as (_ & Hb & _). lia.
  - destruct Hstep as [Hq _]. rewrite Hq in IH. cbn in IH. lia.
  - destruct Hstep as [_ Hs]. by rewrite Hs.
  - destruct Hstep as (_ & Hq & _). rewrite Hq. cbn. lia.
  - destruct Hstep as [Hq _]. by rewrite Hq.
Qed.

Lemma settings_calls_app tr1 tr2 :
  settings_calls (tr1 ++ tr2) = settings_calls tr1 ++ settings_calls tr2.
Proof. apply omap_app. Qed.

Lemma dispatches_app tr1 tr2 :
  dispatches (tr1 ++ tr2) = dispatches tr1 ++ dispatches tr2.
Proof. apply omap_app. Qed.

Lemma flush_notifications_quiet d :
  settings_calls (flush_notifications d) = [] /\
  dispatches (flush_notifications d) = [].
Proof.
  induction d as [|request rest [IH1 IH2]]; [done |].
  unfold flush_notifications in *. cbn [map concat].
  rewrite settings_calls_app, dispatches_app, IH1, IH2, !app_nil_r.
  unfold flush_notification.
  destruct (output_buffers request) as [[|b bs]|]; try done.
  by destruct (notify (callback b)).
Qed.

Lemma last_explicit_snoc taken request :
  last_explicit (taken ++ [request]) =
  effective_settings (last_explicit taken) request.
Proof.
  unfold last_explicit, effective_settings. rewrite omap_app. cbn.
  destruct (settings request) as [m|]; cbn.
  - by rewrite last_snoc.
  - by rewrite app_nil_r.
Qed.

(** The blobs the worker resolved, against the requests it took. *)
Lemma exec_settings (s0 s : Proc E) ls :
  exec E s0 ls s ->
  last_settings_ s0 = None ->
  trace s0 = [] ->
  length (settings_calls (trace s)) = length (worker_takes ls) /\
  last_settings_ s = last_explicit (worker_takes ls) /\
  forall i request,
    worker_takes ls !! i = Some request ->
    settings_calls (trace s) !! i =
    Some (effective_settings (last_explicit (take i (worker_takes ls))) request).
Proof.
  intros Hexec Hl0 Ht0.
  induction Hexec as [s | s ls s1 l s2 Hexec IH Hstep].
  - rewrite Ht0. done.
  - destruct (IH Hl0 Ht0) as (Hlen & Hlast & Hblobs). clear IH.
    rewrite worker_takes_snoc. apply step_inv in Hstep.
    destruct l as [p | [r|] | d |].
    + destruct Hstep as (_ & _ & Hl & Ht). rewrite app_nil_r, Hl, Ht. done.
    + destruct Hstep as (_ & Hl & ev & Ht & Hev & _).
      rewrite Ht, settings_calls_app.
      replace (settings_calls [EvInitializeSensorSettings
                 (effective_settings (last_settings_ s1) r); ev])
        with ([effective_settings (last_settings_ s1) r] ++ settings_calls [ev])
        by done.
      rewrite Hev, app_nil_r, Hl, Hlast, last_explicit_snoc.
      split; [rewrite !length_app; cbn; lia |]. split; [done |].
      intros i request Hi.
      destruct (decide (i < length (worker_takes ls))) as [Hlt | Hge].
      * rewrite lookup_app_l in Hi by done.
        rewrite lookup_app_l by lia.
        rewrite take_app_le by lia. by apply Hblobs.
      * assert (i = length (worker_takes ls)) as ->.
        { apply lookup_lt_Some in Hi. rewrite length_app in Hi. cbn in Hi. lia. }
        rewrite list_lookup_middle in Hi by done. simplify_eq.
        rewrite take_app_length.
        by rewrite list_lookup_middle.
    + destruct Hstep as [_ ->]. rewrite app_nil_r. done.
    + destruct Hstep as (_ & _ & Hl & Ht).
      rewrite app_nil_r, Hl, Ht, settings_calls_app.
      replace (EvSensorFlush :: flush_notifications d)
        with ([EvSensorFlush] ++ flush_notifications d) by done.
      rewrite settings_calls_app.
      destruct (flush_notifications_quiet d) as [-> _].
      cbn. rewrite app_nil_r. done.
    + destruct Hstep as (_ & Hl & Ht). rewrite app_nil_r, Hl, Ht. done.
Qed.

(** The dispatches to the sensor, against the requests the worker took. *)
Lemma exec_dispatches (s0 s : Proc E) ls :
  exec E s0 ls s ->
  trace s0 = [] ->
  exists dispatched,
    sublist dispatched (worker_takes ls) /\
    Forall2 dispatch_of dispatched (dispatches (trace s)).
Proof.
  intros Hexec Ht0.
  induction Hexec as [s | s ls s1 l s2 Hexec IH Hstep].
  - exists []. rewrite Ht0. split; constructor.
  - destruct (IH Ht0) as (dispatched & Hsub & Hall). clear IH.
    rewrite worker_takes_snoc. apply step_inv in Hstep.
    destruct l as [p | [r|] | d |].
    + destruct Hstep as (_ & _ & _ & Ht). rewrite app_nil_r, Ht.
      by exists dispatched.
    + destruct Hstep as (_ & _ & ev & Ht & _ & Hev).
      rewrite Ht, dispatches_app.
      replace (dispatches [EvInitializeSensorSettings
                 (effective_settings (last_settings_ s1) r); ev])
        with (dispatches [ev]) by done.
      destruct Hev as [-> | (dsp & -> & Hd)].
      * exists dispatched. rewrite app_nil_r.
        split; [by apply sublist_inserts_r | done].
      * exists (dispatched ++ [r]).
        split; [by apply sublist_app | apply Forall2_app; [done |]].
        by constructor.
    + destruct Hstep as [_ ->]. rewrite app_nil_r. by exists dispatched.
    + destruct Hstep as (_ & _ & _ & Ht).
      rewrite app_nil_r, Ht, dispatches_app.
      replace (EvSensorFlush :: flush_notifications d)
        with ([EvSensorFlush] ++ flush_notifications d) by done.
      rewrite dispatches_app.
      destruct (flush_notifications_quiet d) as [_ ->].
      cbn. rewrite app_nil_r. by exists dispatched.
    + destruct Hstep as (_ & _ & Ht). rewrite app_nil_r, Ht.
      by exists dispatched.
Qed.

End Executions.

(** ** The claims on the queue *)

Section QueueClaims.

Variable E : Collaborators.

Lemma blocked_when_full frame pipelines request rest (s : Proc E) :
  req_pipeline_id request < length pipelines ->
  kPipelineDepth E < length (pending_requests_ s) ->
  submit_requests E frame pipelines (request :: rest) s
    = inr (InWait request rest, s) /\
  submit_wake E frame pipelines no_timeout request rest s
    = inr (InWait request rest, s).
Proof.
  intros Hid Hfull. cbn [submit_requests submit_wake].
  destruct (Nat.leb_spec (length pipelines) (req_pipeline_id request)); [lia |].
  unfold wait_or_push.
  destruct (Nat.ltb_spec (kPipelineDepth E) (length (pending_requests_ s)));
    [done | lia].
Qed.

(** C5.  In every state reached from an empty queue the queue holds at most
    [kPipelineDepth + 1] requests; a submitter that finds more than
    [kPipelineDepth] requests queued blocks in the wait and leaves the state
    as it is; and a submission step only appends to the queue, so that no
    queued request is dropped by it. *)
Theorem C5_queue_bound (s0 s : Proc E) (ls : list Label) :
  exec E s0 ls s ->
  pending_requests_ s0 = [] ->
  length (pending_requests_ s) <= kPipelineDepth E + 1 /\
  (forall frame pipelines request rest,
      req_pipeline_id request < length pipelines ->
      kPipelineDepth E < length (pending_requests_ s) ->
      submit_requests E frame pipelines (request :: rest) s
        = inr (InWait request rest, s) /\
      submit_wake E frame pipelines no_timeout request rest s
        = inr (InWait request rest, s)) /\
  (forall pushed s',
      step E s (LPush pushed) s' ->
      pending_requests_ s' = pending_requests_ s ++ pushed).
Proof.
  intros Hexec H0. split; [| split].
  - eapply exec_bound; [done |]. rewrite H0. cbn. lia.
  - intros. by apply blocked_when_full.
  - intros pushed s' Hstep. by apply step_inv in Hstep as [? _].
Qed.

(** C9.  Along every interleaving that starts with an empty queue and an
    empty trace, the requests pushed so far are, in order, the requests
    removed so far followed by the queue; the worker takes the request at the
    head of the queue and leaves the rest; and the dispatches to the sensor
    are made, in order, for a subsequence of the pushed requests: dispatch
    order is submission order. *)
Theorem C9_fifo_dispatch (s0 s : Proc E) (ls : list Label) :
  exec E s0 ls s ->
  pending_requests_ s0 = [] ->
  trace s0 = [] ->
  pushes ls = removals ls ++ pending_requests_ s /\
  (forall request s',
      step E s (LTake (Some request)) s' ->
      pending_requests_ s = request :: pending_requests_ s') /\
  exists dispatched,
    sublist dispatched (worker_takes ls) /\
    sublist dispatched (pushes ls) /\
    Forall2 dispatch_of dispatched (dispatches (trace s)).
Proof.
  intros Hexec Hq0 Ht0.
  pose proof (exec_queue E _ _ _ Hexec) as Hq. rewrite Hq0 in Hq. cbn in Hq.
  split; [done |]. split.
  - intros request s' Hstep. by apply step_inv in Hstep as [? _].
  - destruct (exec_dispatches E _ _ _ Hexec Ht0) as (dispatched & Hsub & Hall).
    exists dispatched. split; [done |]. split; [| done].
    rewrite Hq. apply sublist_inserts_r.
    etrans; [exact Hsub | apply worker_takes_removals].
Qed.

(** C8 (amended).  Along every interleaving of a processor that starts
    without remembered settings, the remembered blob is the explicit settings
    of the latest request the worker itself took that carried any: only the
    worker writes it, so a request that was flushed never counts.  A request
    taken with explicit settings is resolved from a clone of them; a request
    taken without settings is resolved from a clone of the remembered blob,
    the most recent explicit settings among the requests the worker took
    before it, which is not null as soon as one of them carried settings.
    When nothing was flushed, the requests the worker took are the first
    requests submitted, in submission order. *)
Theorem C8_settings_reuse (s0 s : Proc E) (ls : list Label) :
  exec E s0 ls s ->
  last_settings_ s0 = None ->
  trace s0 = [] ->
  last_settings_ s = last_explicit (worker_takes ls) /\
  (forall i request,
    worker_takes ls !! i = Some request ->
    (forall m, settings request = Some m ->
               settings_calls (trace s) !! i = Some (Clone (Some m))) /\
    (settings request = None ->
     settings_calls (trace s) !! i =
       Some (Clone (last_explicit (take i (worker_takes ls)))) /\
     forall j earlier m,
       j < i -> worker_takes ls !! j = Some earlier ->
       settings earlier = Some m ->
       is_Some (last_explicit (take i (worker_takes ls))))) /\
  (pending_requests_ s0 = [] ->
   removals ls = worker_takes ls ->
   worker_takes ls `prefix_of` pushes ls).
Proof.
  intros Hexec Hl0 Ht0.
  destruct (exec_settings E _ _ _ Hexec Hl0 Ht0) as (_ & Hlast & Hblobs).
  split; [done |]. split.
  - intros i request Hi. specialize (Hblobs i request Hi).
    unfold effective_settings in Hblobs. unfold Clone. split.
    + intros m Hm. by rewrite Hm in Hblobs.
    + intros Hnone. rewrite Hnone in Hblobs. split; [done |].
      intros j earlier m Hj Hearlier Hm.
      unfold last_explicit. apply last_is_Some.
      assert (m ∈ omap settings (take i (worker_takes ls))) as Hin.
      { apply list_elem_of_omap. exists earlier. split; [| done].
        apply list_elem_of_lookup. exists j. by rewrite lookup_take_lt. }
      intros Hnil. rewrite Hnil in Hin. by apply elem_of_nil in Hin.
  - intros Hq0 Hrem.
    pose proof (exec_queue E _ _ _ Hexec) as Hq.
    rewrite Hq0, Hrem in Hq. cbn in Hq. rewrite Hq. by apply prefix_app_r.
Qed.

End QueueClaims.

(** ** Whole calls of ProcessPipelineRequests *)

Section CallClaims.

Variable E : Collaborators.
Variable interference : Proc E -> Proc E -> Prop.

Lemma segment_post_pushed_by pipelines requests (s s' : Proc E) pc :
  segment_post E pipelines requests s pc s' ->
  pending_requests_ s' = pending_requests_ s ++ pushed_by E s s' /\
  Forall2 (fun p q => settings p = req_settings q) (pushed_by E s s')
    (take (length (pushed_by E s s')) requests) /\
  length (pushed_by E s s') <= length requests /\
  match pc with
  | InWait request rest =>
    drop (length (pushed_by E s s')) requests = request :: rest
  | Returned r => True
  end.
Proof.
  intros (pushed & Hq & _ & _ & _ & Hall & Hn & _ & Hpc).
  unfold pushed_by. rewrite Hq, drop_app_length.
  repeat split; try done. destruct pc; [by destruct Hpc | done].
Qed.

Lemma prefix_pushed (requests : list HwlPipelineRequest)
    (pushed1 pushed2 : list PendingRequest) :
  Forall2 (fun p q => settings p = req_settings q) pushed1
    (take (length pushed1) requests) ->
  Forall2 (fun p q => settings p = req_settings q) pushed2
    (take (length pushed2) (drop (length pushed1) requests)) ->
  Forall2 (fun p q => settings p = req_settings q) (pushed1 ++ pushed2)
    (take (length (pushed1 ++ pushed2)) requests).
Proof.
  intros H1 H2. rewrite length_app, <- take_take_drop.
  by apply Forall2_app.
Qed.

Lemma submit_run_post frame pipelines pc (s s' : Proc E) waits pushed r :
  submit_run E interference frame pipelines pc s waits pushed r s' ->
  Forall2 (fun p q => settings p = req_settings q) pushed
    (take (length pushed) (remaining pc)) /\
  length pushed <= length (remaining pc) /\
  (timeout ∈ waits ->
   r = TIMED_OUT /\
   (exists earlier, waits = earlier ++ [timeout] /\ timeout ∉ earlier) /\
   length pushed < length (remaining pc)) /\
  ((forall a b, interference a b ->
                pending_requests_ b = pending_requests_ a) ->
   pending_requests_ s' = pending_requests_ s ++ pushed).
Proof.
  induction 1 as [r s | request rest s s1 result pc s2 waits pushed r s3
                          Hint Hwake Hrun IH].
  - cbn. split; [constructor |]. split; [done |]. split.
    + intros Hin. by apply elem_of_nil in Hin.
    + intros _. by rewrite app_nil_r.
  - apply submit_wake_post in Hwake.
    destruct IH as (Hall & Hlen & Htimeout & Hqueue).
    destruct result.
    + (* the wait returned without a timeout *)
      apply segment_post_pushed_by in Hwake as (Hq & Hall1 & Hlen1 & Hpc).
      cbn [remaining].
      assert (Hrem : (pushed = [] /\ remaining pc = []) \/
                remaining pc = drop (length (pushed_by E s1 s2)) (request :: rest)).
      { destruct pc as [request' rest' | r']; [right; by rewrite Hpc |].
        left. cbn in Hlen. destruct pushed; [done | cbn in Hlen; lia]. }
      split; [| split; [| split]].
      * destruct Hrem as [[-> _] | Hrem]; [by rewrite app_nil_r |].
        apply prefix_pushed; [done |]. by rewrite <- Hrem.
      * rewrite length_app.
        destruct Hrem as [[-> _] | Hrem]; [cbn in *; lia |].
        rewrite Hrem, length_drop in Hlen. cbn in *. lia.
      * intros Hin. apply elem_of_cons in Hin as [? | Hin]; [done |].
        destruct (Htimeout Hin) as (-> & (earlier & -> & Hnot) & Hlt).
        split; [done |]. split.
        -- exists (no_timeout :: earlier). split; [done |].
           intros [? | ?]%elem_of_cons; done.
        -- rewrite length_app.
           destruct Hrem as [[_ Hrem] | Hrem]; [rewrite Hrem in Hlt; cbn in Hlt; lia |].
           rewrite Hrem, length_drop in Hlt. cbn in *. lia.
      * intros Hstable. rewrite (Hqueue Hstable), Hq, (Hstable _ _ Hint).
        by rewrite app_assoc.
    + (* the wait timed out *)
      destruct Hwake as [-> ->].
      inversion Hrun; subst. unfold pushed_by. rewrite drop_all. cbn.
      split; [constructor |]. split; [lia |]. split.
      * intros _. split; [done |]. split; [| lia].
        exists []. split; [done |]. apply not_elem_of_nil.
      * intros Hstable. by rewrite (Hstable _ _ Hint), app_nil_r.
Qed.

(** C7.  When a wait of a [ProcessPipelineRequests] call times out, the call
    returns [TIMED_OUT] at that wait, which is its last; the requests it
    pushed are resolved from a proper prefix of its requests, so the blocked
    request and those after it are never pushed; the return at the timeout
    leaves the state as the wake-up found it; and when nothing else changed
    the queue while the call was blocked, the queue at the return is the
    queue at the call followed by the requests the call pushed: they remain
    queued. *)
Theorem C7_timeout_keeps_earlier_requests frame requests pipelines
    (s s' : Proc E) waits pushed r :
  ProcessPipelineRequests E interference frame requests pipelines
    s waits pushed r s' ->
  timeout ∈ waits ->
  r = TIMED_OUT /\
  (exists earlier, waits = earlier ++ [timeout] /\ timeout ∉ earlier) /\
  length pushed < length requests /\
  Forall2 (fun p q => settings p = req_settings q) pushed
    (take (length pushed) requests) /\
  (forall request rest (s1 : Proc E),
      submit_wake E frame pipelines timeout request rest s1
      = inr (Returned TIMED_OUT, s1)) /\
  ((forall a b, interference a b ->
                pending_requests_ b = pending_requests_ a) ->
   pending_requests_ s' = pending_requests_ s ++ pushed).
Proof.
  intros Hcall Hin.
  destruct Hcall as [s pc s1 waits pushed r s' Hfirst Hrun].
  apply submit_requests_post in Hfirst.
  apply segment_post_pushed_by in Hfirst as (Hq & Hall1 & Hlen1 & Hpc).
  apply submit_run_post in Hrun as (Hall & Hlen & Htimeout & Hqueue).
  destruct (Htimeout Hin) as (-> & Hlast & Hlt).
  assert (Hrem : remaining pc = drop (length (pushed_by E s s1)) requests).
  { destruct pc as [request rest | r']; [by rewrite Hpc | cbn in Hlt; lia]. }
  rewrite Hrem in Hall, Hlt. rewrite length_drop in Hlt.
  split; [done |]. split; [done |]. split; [rewrite length_app; lia |].
  split; [by apply prefix_pushed |]. split; [done |].
  intros Hstable. by rewrite (Hqueue Hstable), Hq, app_assoc.
Qed.

End CallClaims.

(** ** Buffer resolution *)

Section Resolution.

Variable E : Collaborators.

(** A buffer that [CreateSensorBuffer] drops is left out and the loop goes on
    with the buffers after it. *)
Lemma CreateSensorBuffers_loop_drop cam frame b rest strs pipeline cbk stream
    (w w1 : World E) :
  strs !! stream_id b = Some stream ->
  CreateSensorBuffer E cam frame stream pipeline cbk b w = inr (None, w1) ->
  CreateSensorBuffers_loop E cam frame (b :: rest) strs pipeline cbk w =
  CreateSensorBuffers_loop E cam frame rest strs pipeline cbk w1.
Proof.
  intros Hs Hb. cbn [CreateSensorBuffers_loop]. rewrite Hs.
  unfold bind at 1. rewrite Hb. unfold bind, ret.
  by destruct (CreateSensorBuffers_loop E cam frame rest strs pipeline cbk w1)
    as [f | [sbs w2]].
Qed.

(** A failed import of the acquire fence drops a buffer that was locked. *)
Lemma CreateSensorBuffer_fence_failure cam frame stream pipeline cbk b fence
    (w w1 w2 : World E) locked fd :
  is_input stream = false ->
  acquire_fence b = Some fence ->
  LockSensorBuffer E stream (buffer b)
    (Some {| sb_width := width stream; sb_height := height stream;
             frame_number := frame; pipeline_id := pipeline;
             camera_id := cam; format := override_format stream;
             dataSpace := override_data_space stream;
             stream_buffer := with_status b kError; callback := cbk;
             acquire_fence_fd := initial_acquire_fence_fd E;
             sb_is_input := is_input stream; plane := initial_plane E |}) w
  = inr ((OK, Some locked), w1) ->
  importer_importFence E fence w1 = ((false, fd), w2) ->
  CreateSensorBuffer E cam frame stream pipeline cbk b w = inr (None, w2).
Proof.
  intros Hin Hfence Hlock Himport. unfold CreateSensorBuffer.
  rewrite Hin. cbv beta iota zeta. rewrite Hfence.
  unfold bind at 1. rewrite Hlock. cbn.
  unfold bind, call. by rewrite Himport.
Qed.

(** The flat lock path returns its [ret], which is [OK], when the importer
    returns a null address. *)
Lemma LockSensorBuffer_flat_lock_failure stream handle sb (w w1 : World E)
    stride size :
  override_format stream <> HAL_PIXEL_FORMAT_YCBCR_420_888 ->
  format_table E stream = Some (stride, size) ->
  importer_lock E handle (producer_usage stream) size w = (0%Z, w1) ->
  LockSensorBuffer E stream handle (Some sb) w =
  inr ((OK, Some (with_plane sb (store_img (plane sb) 0))), w1).
Proof.
  intros Hfmt Htable Hlock. unfold LockSensorBuffer.
  destruct (Z.eqb_spec (override_format stream) HAL_PIXEL_FORMAT_YCBCR_420_888);
    [done |].
  rewrite GetBufferSizeAndStride_table, Htable. cbn.
  unfold bind, call. by rewrite Hlock.
Qed.

(** C3, at the failing inputs.  With an importer whose locks fail, the one
    buffer of a 16-bit raw stream is kept in the resolved list, with a null
    image address, although its lock failed; and on a YCbCr stream, where
    the failed lock does reset the record, a buffer that also carries an
    acquire fence makes the call dereference the null record, so the buffer
    after it is never resolved. *)
Theorem C3_lock_failure_not_dropped :
  (exists b,
      CreateSensorBuffers (example_collaborators false true true) 0 1
        [example_stream_buffer None]
        (streams (example_pipeline HAL_PIXEL_FORMAT_RAW16)) 0
        example_callback tt
      = inr (Some [b], tt) /\
      plane b = SinglePlane 0 0 0) /\
  CreateSensorBuffers (example_collaborators false true true) 0 1
    [example_stream_buffer (Some 9%Z); example_stream_buffer None]
    (streams (example_pipeline HAL_PIXEL_FORMAT_YCBCR_420_888)) 0
    example_callback tt
  = inl NullDeref.
Proof.
  split.
  - eexists. split; [vm_compute; reflexivity | reflexivity].
  - vm_compute. reflexivity.
Qed.

Lemma body_first_fault (s : Proc E) request rest f :
  pending_requests_ s = request :: rest ->
  first_output_buffer request = inl f ->
  RequestProcessorLoop_body E s = inl f.
Proof.
  intros Hq Hf. unfold RequestProcessorLoop_body. rewrite Hq.
  unfold bind at 1. by rewrite Hf.
Qed.

Lemma Flush_first_fault (s : Proc E) request rest f :
  pending_requests_ s = request :: rest ->
  first_output_buffer request = inl f ->
  Flush E s = inl f.
Proof.
  intros Hq Hf. unfold Flush, bind, emit, in_world, call.
  destruct (sensor_Flush E _) as [r w1]. cbn [pending_requests_].
  rewrite Hq. cbn [Flush_loop]. unfold bind, NotifyFailedRequest, bind.
  by rewrite Hf.
Qed.

(** C10.  The worker iteration and [Flush] read the first element of the
    output buffer list of a queued request unchecked: the read gives a buffer
    exactly when the list is there and not empty; on a null list the worker
    and the flush dereference null, on an empty list [at] throws; so either
    returns only if the request has a first output buffer.  Resolution does
    produce both: a null list for a request without output buffers, and an
    empty list when every buffer was dropped. *)
Theorem C10_first_output_buffer_unchecked (s : Proc E) request rest :
  pending_requests_ s = request :: rest ->
  (forall b, first_output_buffer request = inr b <->
             exists bs, output_buffers request = Some (b :: bs)) /\
  (output_buffers request = None ->
   RequestProcessorLoop_body E s = inl NullDeref /\ Flush E s = inl NullDeref) /\
  (output_buffers request = Some [] ->
   RequestProcessorLoop_body E s = inl OutOfRange /\
   Flush E s = inl OutOfRange) /\
  (forall s', RequestProcessorLoop_body E s = inr (tt, s') ->
              has_output request = true) /\
  (forall r s', Flush E s = inr (r, s') ->
                forallb has_output (request :: rest) = true) /\
  (forall cam frame strs pipeline cbk w,
      CreateSensorBuffers E cam frame [] strs pipeline cbk w = inr (None, w)) /\
  (exists w,
      CreateSensorBuffers (example_collaborators false true true) 0 1
        [example_stream_buffer None]
        (streams (example_pipeline HAL_PIXEL_FORMAT_YCBCR_420_888)) 0
        example_callback w
      = inr (Some [], w)).
Proof.
  intros Hq. split; [| split; [| split; [| split; [| split; [| split]]]]].
  - intros b. unfold first_output_buffer.
    destruct (output_buffers request) as [[|b0 bs]|]; split;
      try done; try (intros [bs' ?]; done).
    + intros [= ->]. by exists bs.
    + intros [bs' [= -> ->]]. done.
  - intros Hnone.
    assert (first_output_buffer request = inl NullDeref) as Hf
      by (unfold first_output_buffer; by rewrite Hnone).
    split; [by eapply body_first_fault | by eapply Flush_first_fault].
  - intros Hnil.
    assert (first_output_buffer request = inl OutOfRange) as Hf
      by (unfold first_output_buffer; by rewrite Hnil).
    split; [by eapply body_first_fault | by eapply Flush_first_fault].
  - intros s' Hrun.
    destruct (body_inv E s s' request rest Hq Hrun)
      as (b & bs & r & st & w1 & outs & w2 & Hout & _).
    unfold has_output. by rewrite Hout.
  - intros r s' Hrun. apply Flush_inv in Hrun as [Hall _]. by rewrite <- Hq.
  - done.
  - exists tt. vm_compute. reflexivity.
Qed.

End Resolution.

(** ** The failure notification of the worker *)

Section ResultError.

Variable E : Collaborators.

(** When the request at the head has a first output buffer that names a
    callee, and no output buffer is acquired or the settings were not
    resolved, the iteration emits one result error for the buffer's frame
    number with no stream, and pops the request. *)
Lemma worker_result_error (s : Proc E) request rest b bs callee r st w1 outs w2 :
  pending_requests_ s = request :: rest ->
  output_buffers request = Some (b :: bs) ->
  notify (callback b) = Some callee ->
  InitializeSensorSettings E (effective_settings (last_settings_ s) request)
    (world s) = ((r, st), w1) ->
  AcquireBuffers_loop E (b :: bs) w1 = inr (outs, w2) ->
  outs = [] \/ r <> OK ->
  exists s',
    RequestProcessorLoop_body E s = inr (tt, s') /\
    pending_requests_ s' = rest /\
    trace s' = trace s ++
      [EvInitializeSensorSettings
         (effective_settings (last_settings_ s) request);
       EvNotify callee (pipeline_id b)
         (error_message (frame_number b) kErrorResult)] /\
    error_stream_id (error_message (frame_number b) kErrorResult) = (-1)%Z.
Proof.
  intros Hq Hout Hcb Hinit Hacq Hwhy.
  unfold RequestProcessorLoop_body. rewrite Hq.
  unfold bind at 1, first_output_buffer. rewrite Hout.
  cbn [lift_fault]. unfold ret at 1. unfold effective_settings in *.
  destruct s as [cam q last w tr]. cbn [pending_requests_ last_settings_
    world trace] in *. subst q.
  assert (Hfail : (match outs with [] => false | _ :: _ => true end
                   && (r =? OK)%Z) = false).
  { destruct Hwhy as [-> | Hr]; [done |].
    apply Z.eqb_neq in Hr. rewrite Hr. by destruct outs. }
  destruct (settings request) as [m|];
    unfold bind, emit, in_world, call, set_last_settings, set_pending, ret,
      Clone, pop_pending;
    cbn [pending_requests_ last_settings_ world trace camera_id_
           AcquireBuffers tail];
    rewrite Hinit; unfold bind;
    cbn [pending_requests_ last_settings_ world trace camera_id_];
    rewrite Hacq; unfold ret;
    (destruct outs as [|o outs]; cbn [andb] in *;
     [| rewrite Hfail]; rewrite Hcb;
     cbn [pending_requests_ last_settings_ world trace camera_id_ tail];
     eexists; (split; [reflexivity |]); cbn;
     by rewrite <- app_assoc).
Qed.

(** C2, at the failing input.  A request whose only output buffer is dropped
    by resolution (here: its YCbCr lock fails) is queued with an empty output
    list, the submission returns [OK]; the worker iteration then throws
    out of range at [output_buffers->at(0)], before any notification is
    delivered and before the request is popped. *)
Theorem C2_no_result_error_without_output_buffers :
  exists s1,
    submit_requests (example_collaborators false true true) 1%Z
      [example_pipeline HAL_PIXEL_FORMAT_YCBCR_420_888]
      [example_request (Some (MetadataBlob 11)) [example_stream_buffer None]]
      (example_proc false true true [])
    = inr (Returned OK, s1) /\
    pending_requests_ s1 = [example_pending (Some (MetadataBlob 11)) (Some [])] /\
    trace s1 = [] /\
    RequestProcessorLoop_body (example_collaborators false true true) s1
    = inl OutOfRange.
Proof.
  eexists. split; [vm_compute; reflexivity |].
  split; [reflexivity |]. split; reflexivity.
Qed.

End ResultError.

(** ** The claims at concrete inputs *)

(** C1 as the specification states it fails: a record with a valid fence
    descriptor whose wait fails is not in the returned list. *)
Lemma C1_counterexample :
  (0 <= acquire_fence_fd (example_buffer 1 5 example_callback))%Z /\
  (sync_wait (example_collaborators true true false) 5
     (ns2ms (kMaxFrameDuration (example_collaborators true true false)))
     tt).1 <> OK /\
  exists acq,
    AcquireBuffers (example_collaborators true true false)
      (Some [example_buffer 1 5 example_callback]) tt
    = inr (Some acq, tt) /\
    example_buffer 1 5 example_callback ∉ acq.
Proof.
  split; [cbn; lia |]. split; [cbn; discriminate |].
  exists []. split; [reflexivity | apply not_elem_of_nil].
Qed.

Lemma C1_witness :
  [example_buffer 1 5 example_callback;
   example_buffer 1 (-1) example_callback] <> [] /\
  exists acq w',
    AcquireBuffers (example_collaborators true true false)
      (Some [example_buffer 1 5 example_callback;
             example_buffer 1 (-1) example_callback]) tt
    = inr (Some acq, w') /\
    forwarded (example_collaborators true true false) tt
      [example_buffer 1 5 example_callback;
       example_buffer 1 (-1) example_callback] acq w' /\
    sublist acq [example_buffer 1 5 example_callback;
                 example_buffer 1 (-1) example_callback] /\
    (forall b,
        b ∈ [example_buffer 1 5 example_callback;
             example_buffer 1 (-1) example_callback] ->
        (acquire_fence_fd b < 0)%Z -> b ∈ acq).
Proof.
  split; [discriminate |].
  apply (C1_AcquireBuffers_drops_failed_waits
           (example_collaborators true true false)
           [example_buffer 1 5 example_callback;
            example_buffer 1 (-1) example_callback] tt).
  discriminate.
Defined.

(** The example run is an interleaving: a submission and two iterations of
    the worker. *)
Lemma example_run_exec :
  exec (example_collaborators true true true) (example_proc true true true [])
    example_run_labels example_run_3.
Proof.
  change example_run_labels with
    ((([] ++ [LPush (pushed_by _ (example_proc true true true []) example_run_1)])
        ++ [LTake (head (pending_requests_ example_run_1))])
       ++ [LTake (head (pending_requests_ example_run_2))]).
  eapply exec_snoc; [eapply exec_snoc; [eapply exec_snoc; [apply exec_nil |] |] |].
  - apply (step_submit _ 1%Z [example_pipeline HAL_PIXEL_FORMAT_RAW16]
             example_run_requests _ (Returned OK)).
    vm_compute. reflexivity.
  - apply step_worker. vm_compute. reflexivity.
  - apply step_worker. vm_compute. reflexivity.
Qed.

Lemma C5_witness :
  exec (example_collaborators true true true) (example_proc true true true [])
    example_run_labels example_run_3 /\
  length (pending_requests_ example_run_3)
  <= kPipelineDepth (example_collaborators true true true) + 1.
Proof.
  split; [exact example_run_exec |].
  exact (proj1 (C5_queue_bound (example_collaborators true true true)
                  (example_proc true true true []) example_run_3
                  example_run_labels example_run_exec eq_refl)).
Defined.

(** C6 as the specification states it fails: one request is queued, its first
    output buffer has no callee to notify, and the flush emits no
    notification. *)
Lemma C6_counterexample :
  exists s',
    Flush (example_collaborators true true true)
      (example_proc true true true
         [example_pending None
            (Some [example_buffer 1 (-1) {| notify := None |}])])
    = inr (OK, s') /\
    pending_requests_ s' = [] /\
    notifications (trace s') = [] /\
    length (notifications (trace s')) <> 1.
Proof.
  eexists. split; [vm_compute; reflexivity |]. cbn. by repeat split.
Qed.

Lemma C6_witness :
  forallb has_output (pending_requests_ example_busy) = true /\
  exists s',
    Flush (example_collaborators true true true) example_busy
    = inr ((sensor_Flush (example_collaborators true true true)
              (world example_busy)).1, s') /\
    pending_requests_ s' = [] /\
    world s' = (sensor_Flush (example_collaborators true true true)
                  (world example_busy)).2 /\
    last_settings_ s' = last_settings_ example_busy /\
    trace s' = trace example_busy ++
               EvSensorFlush ::
               flush_notifications (pending_requests_ example_busy) /\
    (forallb has_notify (pending_requests_ example_busy) = true ->
     length (flush_notifications (pending_requests_ example_busy)) =
     length (pending_requests_ example_busy)).
Proof.
  split; [reflexivity |].
  apply (C6_Flush_notifies_queued_requests
           (example_collaborators true true true) example_busy).
  reflexivity.
Defined.

(** The call of the example that finds the queue busy blocks before its
    second request and times out. *)
Lemma example_call_times_out :
  ProcessPipelineRequests (example_collaborators true true true) eq 3%Z
    example_run_requests [example_pipeline HAL_PIXEL_FORMAT_RAW16]
    example_busy [timeout]
    (pushed_by _ example_busy example_blocked ++
     (pushed_by _ example_blocked example_blocked ++ []))
    TIMED_OUT example_blocked.
Proof.
  eapply (call_run _ _ _ _ _ _
            (InWait (example_request None [example_stream_buffer None]) [])).
  - vm_compute. reflexivity.
  - eapply (run_wait _ _ _ _ _ _ _ example_blocked timeout
              (Returned TIMED_OUT) example_blocked [] []).
    + reflexivity.
    + reflexivity.
    + apply run_returned.
Qed.

Lemma C7_witness :
  timeout ∈ [timeout] /\
  length (pushed_by (example_collaborators true true true)
            example_busy example_blocked ++
          (pushed_by _ example_blocked example_blocked ++ []))
  < length example_run_requests /\
  pending_requests_ example_blocked =
  pending_requests_ example_busy ++
  (pushed_by (example_collaborators true true true)
     example_busy example_blocked ++
   (pushed_by _ example_blocked example_blocked ++ [])).
Proof.
  split; [left |].
  pose proof (C7_timeout_keeps_earlier_requests
                (example_collaborators true true true) eq 3%Z
                example_run_requests
                [example_pipeline HAL_PIXEL_FORMAT_RAW16]
                example_busy example_blocked [timeout] _ TIMED_OUT
                example_call_times_out (list_elem_of_here timeout []))
    as (_ & _ & Hlen & _ & _ & Hqueue).
  split; [exact Hlen |].
  apply Hqueue. intros a b Hab. by rewrite Hab.
Defined.

Lemma C8_witness :
  last_settings_ (example_proc true true true []) = None /\
  trace (example_proc true true true []) = [] /\
  settings_calls (trace example_run_3) !! 1 =
  Some (Clone (last_explicit (take 1 (worker_takes example_run_labels)))) /\
  is_Some (last_explicit (take 1 (worker_takes example_run_labels))).
Proof.
  split; [reflexivity |]. split; [reflexivity |].
  pose proof (C8_settings_reuse (example_collaborators true true true)
                (example_proc true true true []) example_run_3
                example_run_labels example_run_exec eq_refl eq_refl)
    as (_ & Hblobs & _).
  destruct (Hblobs 1 (example_pending None
                        (Some [example_buffer 1 (-1) example_callback]))
              eq_refl) as [_ Hnone].
  destruct (Hnone eq_refl) as [Hcall Hsome].
  split; [exact Hcall |].
  apply (Hsome 0 (example_pending (Some (MetadataBlob 11))
                    (Some [example_buffer 1 (-1) example_callback]))
           (MetadataBlob 11)); [lia | reflexivity | reflexivity].
Defined.

(** The flushed example is an interleaving: a submission, a flush, a
    submission and one iteration of the worker. *)
Lemma example_flushed_exec :
  exec (example_collaborators true true true) (example_proc true true true [])
    example_flushed_labels example_flushed_4.
Proof.
  change example_flushed_labels with
    (((([] ++ [LPush (pushed_by _ (example_proc true true true [])
                        example_flushed_1)])
         ++ [LDrain (pending_requests_ example_flushed_1)])
        ++ [LPush (pushed_by _ example_flushed_2 example_flushed_3)])
       ++ [LTake (head (pending_requests_ example_flushed_3))]).
  eapply exec_snoc;
    [eapply exec_snoc;
       [eapply exec_snoc; [eapply exec_snoc; [apply exec_nil |] |] |] |].
  - apply (step_submit _ 1%Z [example_pipeline HAL_PIXEL_FORMAT_RAW16]
             [example_request (Some (MetadataBlob 11))
                [example_stream_buffer None]] _ (Returned OK)).
    vm_compute. reflexivity.
  - apply (step_flush _ _ OK). vm_compute. reflexivity.
  - apply (step_submit _ 2%Z [example_pipeline HAL_PIXEL_FORMAT_RAW16]
             [example_request None [example_stream_buffer None]] _
             (Returned OK)).
    vm_compute. reflexivity.
  - apply step_worker. vm_compute. reflexivity.
Qed.

(** C8 as the specification states it fails: a request with settings 11 was
    submitted to a fresh processor and flushed, a request without settings
    was submitted after it, and the worker resolves that one from a null
    blob, not from the settings supplied before. *)
Lemma C8_counterexample :
  exec (example_collaborators true true true) (example_proc true true true [])
    example_flushed_labels example_flushed_4 /\
  last_settings_ (example_proc true true true []) = None /\
  settings <$> pushes example_flushed_labels
  = [Some (MetadataBlob 11); None] /\
  settings <$> worker_takes example_flushed_labels = [None] /\
  settings_calls (trace example_flushed_4) = [None] /\
  settings_calls (trace example_flushed_4) <> [Some (MetadataBlob 11)].
Proof.
  split; [exact example_flushed_exec |].
  repeat split; try reflexivity. discriminate.
Qed.



Lemma C9_witness :
  pending_requests_ (example_proc true true true []) = [] /\
  trace (example_proc true true true []) = [] /\
  pushes example_run_labels =
  removals example_run_labels ++ pending_requests_ example_run_3 /\
  exists dispatched,
    sublist dispatched (worker_takes example_run_labels) /\
    sublist dispatched (pushes example_run_labels) /\
    Forall2 dispatch_of dispatched (dispatches (trace example_run_3)).
Proof.
  split; [reflexivity |]. split; [reflexivity |].
  pose proof (C9_fifo_dispatch (example_collaborators true true true)
                (example_proc true true true []) example_run_3
                example_run_labels example_run_exec eq_refl eq_refl)
    as (Hq & _ & Hd).
  split; [exact Hq | exact Hd].
Defined.

Lemma C10_witness :
  RequestProcessorLoop_body (example_collaborators true true true)
    (example_proc true true true [example_pending None (Some [])])
  = inl OutOfRange /\
  Flush (example_collaborators true true true)
    (example_proc true true true [example_pending None (Some [])])
  = inl OutOfRange.
Proof.
  pose proof (C10_first_output_buffer_unchecked
                (example_collaborators true true true)
                (example_proc true true true [example_pending None (Some [])])
                (example_pending None (Some [])) [] eq_refl)
    as (_ & _ & Hempty & _).
  exact (Hempty eq_refl).
Defined.

(** * Further properties of the code *)

(** ** Sizes and strides *)

Section MoreFormat.

Variable E : Collaborators.

Lemma GetBufferSizeAndStride_cases (stream : EmulatedStream) (s0 : Z)
    (stride : option Z) :
  GetBufferSizeAndStride E stream (Some s0) stride =
  match format_table E stream with
  | Some (st, sz) =>
    match stride with
    | None => inl NullDeref
    | Some _ => inr (OK, Some sz, Some st)
    end
  | None => inr (BAD_VALUE, Some s0, stride)
  end.
Proof.
  destruct stride as [t0|]; [apply GetBufferSizeAndStride_table |].
  unfold GetBufferSizeAndStride, format_table.
  unfold HAL_PIXEL_FORMAT_RAW16, HAL_PIXEL_FORMAT_RGBA_8888,
    HAL_PIXEL_FORMAT_RGB_888, HAL_PIXEL_FORMAT_Y16, HAL_PIXEL_FORMAT_BLOB,
    HAL_DATASPACE_DEPTH, HAL_DATASPACE_V0_JFIF.
  repeat case_bool_decide;
    repeat match goal with
           | |- context [(?a =? ?b)%Z] => destruct (Z.eqb_spec a b)
           end;
    try reflexivity; try lia; exfalso; intuition lia.
Qed.

(** X1.  [GetBufferSizeAndStride] returns [OK] or [BAD_VALUE] or dereferences
    a null [stride].  On [BAD_VALUE] both out cells are left as they were,
    and that happens exactly for a null [size] or an unsupported format; on
    [OK] both cells are written; the null dereference happens exactly for a
    supported format with a null [stride] and a non-null [size]. *)
Theorem X1_GetBufferSizeAndStride_outputs (stream : EmulatedStream)
    (size stride : option Z) :
  match GetBufferSizeAndStride E stream size stride with
  | inl f =>
    f = NullDeref /\ stride = None /\ is_Some size /\
    is_Some (format_table E stream)
  | inr (r, size', stride') =>
    (r = BAD_VALUE /\ size' = size /\ stride' = stride /\
     (size = None \/ format_table E stream = None)) \/
    (r = OK /\ is_Some size /\ is_Some stride /\
     exists st sz, format_table E stream = Some (st, sz) /\
                   size' = Some sz /\ stride' = Some st)
  end.
Proof.
  destruct size as [s0|].
  - rewrite GetBufferSizeAndStride_cases.
    destruct (format_table E stream) as [[st sz]|] eqn:Ht.
    + destruct stride as [t0|].
      * right. repeat split; try done. by exists st, sz.
      * done.
    + left. repeat split; try done. by right.
  - cbn. left. repeat split; try done. by left.
Qed.

(** X2.  For a width below 32768 the products of the 16-bit raw, RGBA and
    RGB rows do not wrap: the stride is the width times the bytes per pixel
    and the size is the stride times the width, as integers. *)
Theorem X2_flat_sizes_exact (stream : EmulatedStream) (k s0 t0 : Z) :
  (0 <= width stream < 32768)%Z ->
  (override_format stream = HAL_PIXEL_FORMAT_RAW16 /\ k = 2%Z) \/
  (override_format stream = HAL_PIXEL_FORMAT_RGB_888 /\ k = 3%Z) \/
  (override_format stream = HAL_PIXEL_FORMAT_RGBA_8888 /\ k = 4%Z) ->
  GetBufferSizeAndStride E stream (Some s0) (Some t0) =
  inr (OK, Some (width stream * k * width stream)%Z,
       Some (width stream * k)%Z).
Proof.
  intros Hw Hfmt. rewrite GetBufferSizeAndStride_table. unfold format_table.
  assert (Hexact : forall j, (2 <= j <= 4)%Z ->
             mul32 (width stream) j = (width stream * j)%Z /\
             mul32 (width stream * j) (width stream)
             = (width stream * j * width stream)%Z).
  { intros j Hj. split; apply mul32_exact; nia. }
  destruct Hfmt as [[-> ->] | [[-> ->] | [-> ->]]]; cbn [bool_decide];
    repeat case_bool_decide; try done.
  - destruct (Hexact 2%Z ltac:(lia)) as [-> ->]. done.
  - destruct (Hexact 3%Z ltac:(lia)) as [-> ->]. done.
  - destruct (Hexact 4%Z ltac:(lia)) as [-> ->]. done.
Qed.

End MoreFormat.

(** ** Locking a buffer *)

Section MoreLock.

Variable E : Collaborators.

Lemma with_plane_plane (sb : SensorBuffer) : with_plane sb (plane sb) = sb.
Proof. by destruct sb. Qed.

Lemma LockSensorBuffer_record (stream : EmulatedStream) (handle : Z)
    (sb : SensorBuffer) (w : World E) :
  exists r sb' w',
    LockSensorBuffer E stream handle (Some sb) w = inr ((r, Some sb'), w') /\
    (r = OK \/ r = BAD_VALUE) /\
    sb' = with_plane sb (plane sb') /\
    (r = BAD_VALUE -> sb' = sb).
Proof.
  unfold LockSensorBuffer.
  destruct (override_format stream =? HAL_PIXEL_FORMAT_YCBCR_420_888)%Z.
  - unfold bind, call, ret.
    destruct (importer_lockYCbCr E handle (producer_usage stream)
                (to_int32 (width stream), to_int32 (height stream)) w)
      as [yuv w1].
    destruct (nonnull (y yuv) && nonnull (cb_ptr yuv) && nonnull (cr_ptr yuv)).
    + eexists _, _, _. split; [done |]. split; [by left |]. split; [done |].
      intros [=].
    + exists BAD_VALUE, sb, w1. split; [done |]. split; [by right |].
      split; [by rewrite with_plane_plane | done].
  - rewrite GetBufferSizeAndStride_table.
    destruct (format_table E stream) as [[st sz]|].
    + cbn. unfold bind, call, ret.
      destruct (importer_lock E handle (producer_usage stream) sz w)
        as [img w1].
      destruct (nonnull img);
        (eexists _, _, _; split; [done |]; split; [by left |];
         split; [done | intros [=]]).
    + cbn. unfold ret. exists BAD_VALUE, sb, w. split; [done |].
      split; [by right |]. split; [by rewrite with_plane_plane | done].
Qed.

(** X3.  [LockSensorBuffer] on a record never faults and returns [OK] or
    [BAD_VALUE]; the record it leaves differs from the one it was given in
    the plane only, and not at all when the status is [BAD_VALUE].  On a null
    record it returns [BAD_VALUE] without calling the importer. *)
Theorem X3_LockSensorBuffer_writes_only_plane (stream : EmulatedStream)
    (handle : Z) (sb : SensorBuffer) (w : World E) :
  (exists r sb' w',
      LockSensorBuffer E stream handle (Some sb) w = inr ((r, Some sb'), w') /\
      (r = OK \/ r = BAD_VALUE) /\
      sb' = with_plane sb (plane sb') /\
      (r = BAD_VALUE -> sb' = sb)) /\
  LockSensorBuffer E stream handle None w = inr ((BAD_VALUE, None), w).
Proof.
  split; [apply LockSensorBuffer_record | done].
Qed.

(** X4.  The status of [LockSensorBuffer] on a record: for a YCbCr 4:2:0
    stream it is [OK] exactly when the layout returned by the importer has
    its three plane addresses non-null, and then the record carries that
    layout; for any other stream it is [OK] exactly when the format is in the
    stride and size table, whatever address the importer returned, and an
    unsupported format is rejected without calling the importer. *)
Theorem X4_LockSensorBuffer_status (stream : EmulatedStream) (handle : Z)
    (sb : SensorBuffer) (w w' : World E) (r : status_t)
    (sb' : option SensorBuffer) :
  LockSensorBuffer E stream handle (Some sb) w = inr ((r, sb'), w') ->
  (override_format stream = HAL_PIXEL_FORMAT_YCBCR_420_888 ->
   exists yuv,
     importer_lockYCbCr E handle (producer_usage stream)
       (to_int32 (width stream), to_int32 (height stream)) w = (yuv, w') /\
     (r = OK <-> y yuv <> 0%Z /\ cb_ptr yuv <> 0%Z /\ cr_ptr yuv <> 0%Z) /\
     (r = OK ->
      sb' = Some (with_plane sb
                    (YCbCrPlanes (y yuv) (cb_ptr yuv) (cr_ptr yuv)
                       (yStride yuv) (cStride yuv) (chromaStep yuv))))) /\
  (override_format stream <> HAL_PIXEL_FORMAT_YCBCR_420_888 ->
   (r = OK <-> is_Some (format_table E stream)) /\
   (format_table E stream = None -> w' = w /\ sb' = Some sb)).
Proof.
  unfold LockSensorBuffer.
  destruct (Z.eqb_spec (override_format stream) HAL_PIXEL_FORMAT_YCBCR_420_888)
    as [Hfmt | Hfmt]; intros Hrun; (split; [| done || intros _]);
    try (intros ?; done).
  - intros _. unfold bind, call, ret in Hrun.
    destruct (importer_lockYCbCr E handle (producer_usage stream)
                (to_int32 (width stream), to_int32 (height stream)) w)
      as [yuv w1].
    exists yuv. unfold nonnull in Hrun.
    destruct (Z.eqb_spec (y yuv) 0); destruct (Z.eqb_spec (cb_ptr yuv) 0);
      destruct (Z.eqb_spec (cr_ptr yuv) 0); cbn in Hrun; simplify_eq;
      (split; [done |]); split; try done;
      split; try done; intros (? & ? & ?); done.
  - rewrite GetBufferSizeAndStride_table in Hrun.
    destruct (format_table E stream) as [[st sz]|].
    + cbn in Hrun. unfold bind, call, ret in Hrun.
      destruct (importer_lock E handle (producer_usage stream) sz w)
        as [img w1].
      destruct (nonnull img); simplify_eq; split; try done.
    + cbn in Hrun. unfold ret in Hrun. simplify_eq. split; [| done].
      split; [done | intros [? ?]; done].
Qed.

End MoreLock.

(** ** Resolving buffers *)

Section MoreResolution.

Variable E : Collaborators.

(** [CreateSensorBuffer] in terms of the lock of the fresh record. *)
Lemma CreateSensorBuffer_cases cam frame stream pipeline cbk sbuf (w : World E) :
  exists r sb' w1,
    LockSensorBuffer E (resolved_stream E stream) (buffer sbuf)
      (Some (fresh_buffer E cam frame stream pipeline cbk sbuf)) w
    = inr ((r, Some sb'), w1) /\
    (r = OK \/ r = BAD_VALUE) /\
    sb' = with_plane (fresh_buffer E cam frame stream pipeline cbk sbuf)
            (plane sb') /\
    CreateSensorBuffer E cam frame stream pipeline cbk sbuf w =
    match acquire_fence sbuf with
    | None => inr (if (r =? OK)%Z then Some sb' else None, w1)
    | Some fence =>
      if (r =? OK)%Z
      then inr (if (importer_importFence E fence w1).1.1
                then Some (with_acquire_fence_fd sb'
                             (importer_importFence E fence w1).1.2)
                else None,
                (importer_importFence E fence w1).2)
      else inl NullDeref
    end.
Proof.
  destruct (LockSensorBuffer_record E (resolved_stream E stream) (buffer sbuf)
              (fresh_buffer E cam frame stream pipeline cbk sbuf) w)
    as (r & sb' & w1 & Hlock & Hr & Hsb & _).
  exists r, sb', w1. split; [done |]. split; [done |]. split; [done |].
  unfold CreateSensorBuffer.
  change (if is_input stream
          then with_override_format stream
                 (OverrideFormat E (override_format stream))
          else stream) with (resolved_stream E stream).
  cbv zeta.
  change {| sb_width := width (resolved_stream E stream);
            sb_height := height (resolved_stream E stream);
            frame_number := frame; pipeline_id := pipeline;
            camera_id := cam;
            format := override_format (resolved_stream E stream);
            dataSpace := override_data_space (resolved_stream E stream);
            stream_buffer := with_status sbuf kError; callback := cbk;
            acquire_fence_fd := initial_acquire_fence_fd E;
            sb_is_input := is_input (resolved_stream E stream);
            plane := initial_plane E |}
    with (fresh_buffer E cam frame stream pipeline cbk sbuf).
  unfold bind at 1. rewrite Hlock. cbn [fst snd].
  destruct (acquire_fence sbuf) as [fence|];
    destruct (r =? OK)%Z; try done.
  unfold bind, call, ret.
  by destruct (importer_importFence E fence w1) as [[[] fd] w2].
Qed.

(** X5.  [CreateSensorBuffer] faults only by dereferencing the record it has
    just reset, and only for a buffer with an acquire fence.  A buffer
    without a fence, and a buffer of a stream whose format is in the stride
    and size table, always gives a result; a buffer with a fence on a stream
    of an unsupported format always faults. *)
Theorem X5_CreateSensorBuffer_faults cam frame stream pipeline cbk sbuf
    (w : World E) :
  (forall f, CreateSensorBuffer E cam frame stream pipeline cbk sbuf w = inl f ->
             f = NullDeref /\ is_Some (acquire_fence sbuf)) /\
  (acquire_fence sbuf = None ->
   exists res w',
     CreateSensorBuffer E cam frame stream pipeline cbk sbuf w = inr (res, w')) /\
  (override_format (resolved_stream E stream)
     <> HAL_PIXEL_FORMAT_YCBCR_420_888 ->
   is_Some (format_table E (resolved_stream E stream)) ->
   exists res w',
     CreateSensorBuffer E cam frame stream pipeline cbk sbuf w = inr (res, w')) /\
  (override_format (resolved_stream E stream)
     <> HAL_PIXEL_FORMAT_YCBCR_420_888 ->
   format_table E (resolved_stream E stream) = None ->
   is_Some (acquire_fence sbuf) ->
   CreateSensorBuffer E cam frame stream pipeline cbk sbuf w = inl NullDeref).
Proof.
  destruct (CreateSensorBuffer_cases cam frame stream pipeline cbk sbuf w)
    as (r & sb' & w1 & Hlock & Hr & Hsb & ->).
  pose proof (X4 := Hlock).
  split; [| split; [| split]].
  - intros f. destruct (acquire_fence sbuf) as [fence|]; [| done].
    destruct (r =? OK)%Z; [done |]. intros [= <-]. done.
  - intros ->. by eexists _, _.
  - intros Hfmt Htable. clear X4.
    unfold LockSensorBuffer in Hlock.
    destruct (Z.eqb_spec (override_format (resolved_stream E stream))
                HAL_PIXEL_FORMAT_YCBCR_420_888); [done |].
    rewrite GetBufferSizeAndStride_table in Hlock.
    destruct (format_table E (resolved_stream E stream)) as [[st sz]|];
      [| by destruct Htable].
    cbn in Hlock. unfold bind, call, ret in Hlock.
    destruct (importer_lock E (buffer sbuf)
                (producer_usage (resolved_stream E stream)) sz w) as [img w2].
    assert (r = OK) as -> by (destruct (nonnull img); by simplify_eq).
    cbn. destruct (acquire_fence sbuf); by eexists _, _.
  - intros Hfmt Htable [fence ->]. clear X4.
    unfold LockSensorBuffer in Hlock.
    destruct (Z.eqb_spec (override_format (resolved_stream E stream))
                HAL_PIXEL_FORMAT_YCBCR_420_888); [done |].
    rewrite GetBufferSizeAndStride_table, Htable in Hlock.
    cbn in Hlock. unfold ret in Hlock. by simplify_eq.
Qed.

Lemma CreateSensorBuffer_fields cam frame stream pipeline cbk sbuf
    (w w' : World E) (b : SensorBuffer) :
  CreateSensorBuffer E cam frame stream pipeline cbk sbuf w = inr (Some b, w') ->
  frame_number b = frame /\ pipeline_id b = pipeline /\ camera_id b = cam /\
  callback b = cbk /\
  stream_buffer b = with_status sbuf kError /\
  status (stream_buffer b) = kError /\
  sb_width b = width stream /\ sb_height b = height stream /\
  dataSpace b = override_data_space stream /\
  sb_is_input b = is_input stream /\
  format b = (if is_input stream
              then OverrideFormat E (override_format stream)
              else override_format stream) /\
  (acquire_fence sbuf = None ->
   acquire_fence_fd b = initial_acquire_fence_fd E).
Proof.
  destruct (CreateSensorBuffer_cases cam frame stream pipeline cbk sbuf w)
    as (r & sb' & w1 & _ & _ & Hsb & ->).
  assert (Hfields : forall b0 : SensorBuffer,
             (b0 = sb' \/ exists fd, b0 = with_acquire_fence_fd sb' fd) ->
             frame_number b0 = frame /\ pipeline_id b0 = pipeline /\
             camera_id b0 = cam /\ callback b0 = cbk /\
             stream_buffer b0 = with_status sbuf kError /\
             status (stream_buffer b0) = kError /\
             sb_width b0 = width stream /\ sb_height b0 = height stream /\
             dataSpace b0 = override_data_space stream /\
             sb_is_input b0 = is_input stream /\
             format b0 = (if is_input stream
                          then OverrideFormat E (override_format stream)
                          else override_format stream)).
  { intros b0 Hb0.
    assert (b0 = with_plane (fresh_buffer E cam frame stream pipeline cbk sbuf)
                   (plane sb') \/
            exists fd, b0 = with_acquire_fence_fd
                              (with_plane (fresh_buffer E cam frame stream
                                             pipeline cbk sbuf) (plane sb')) fd)
      as [-> | [fd ->]]
      by (destruct Hb0 as [-> | [fd ->]]; [left | right; exists fd];
          by rewrite <- Hsb).
    all: unfold fresh_buffer, resolved_stream; cbn;
      destruct (is_input stream) eqn:Hin; cbn; rewrite ?Hin;
      by repeat split. }
  destruct (acquire_fence sbuf) as [fence|].
  - destruct (r =? OK)%Z; [| done].
    destruct (importer_importFence E fence w1) as [[[] fd] w2]; cbn; [| done].
    intros [= <- <-].
    destruct (Hfields (with_acquire_fence_fd sb' fd))
      as (? & ? & ? & ? & ? & ? & ? & ? & ? & ? & ?); [right; by exists fd |].
    done.
  - destruct (r =? OK)%Z; [| done]. intros [= <- <-].
    destruct (Hfields sb') as (? & ? & ? & ? & ? & ? & ? & ? & ? & ? & ?);
      [by left |].
    repeat split; try done. intros _. by rewrite Hsb.
Qed.

(** X6.  A record that [CreateSensorBuffer] returns carries the frame number,
    pipeline id, camera id and callback it was called with, the stream
    buffer with its status set to error, the dimensions, data space and
    direction of the stream and the stream's format, remapped for an input
    stream; without an acquire fence its fence descriptor is the initial
    one. *)
Theorem X6_CreateSensorBuffer_record cam frame stream pipeline cbk sbuf
    (w w' : World E) (b : SensorBuffer) :
  CreateSensorBuffer E cam frame stream pipeline cbk sbuf w = inr (Some b, w') ->
  frame_number b = frame /\ pipeline_id b = pipeline /\ camera_id b = cam /\
  callback b = cbk /\
  stream_buffer b = with_status sbuf kError /\
  status (stream_buffer b) = kError /\
  sb_width b = width stream /\ sb_height b = height stream /\
  dataSpace b = override_data_space stream /\
  sb_is_input b = is_input stream /\
  format b = (if is_input stream
              then OverrideFormat E (override_format stream)
              else override_format stream) /\
  (acquire_fence sbuf = None ->
   acquire_fence_fd b = initial_acquire_fence_fd E).
Proof. apply CreateSensorBuffer_fields. Qed.

Lemma CreateSensorBuffers_loop_missing cam frame buffers strs pipeline cbk
    (w : World E) :
  Exists (fun b => strs !! stream_id b = None) buffers ->
  exists f,
    CreateSensorBuffers_loop E cam frame buffers strs pipeline cbk w = inl f.
Proof.
  revert w. induction buffers as [|b rest IH]; intros w Hex.
  - by apply Exists_nil in Hex.
  - cbn [CreateSensorBuffers_loop].
    destruct (strs !! stream_id b) as [stream|] eqn:Hs; [| by eexists].
    unfold bind at 1.
    destruct (CreateSensorBuffer E cam frame stream pipeline cbk b w)
      as [f | [sb w1]]; [by eexists |].
    apply Exists_cons in Hex as [Hb | Hrest]; [congruence |].
    destruct (IH w1 Hrest) as [f Hf]. unfold bind. rewrite Hf. by eexists.
Qed.

(** X7.  [CreateSensorBuffers] looks every buffer's stream up with [at]: when
    some buffer of the list names a stream id that is not in the stream
    table, the call does not return a list; when it is the first buffer, the
    call throws out of range before it touches the importer. *)
Theorem X7_CreateSensorBuffers_missing_stream cam frame buffers strs pipeline
    cbk (w : World E) :
  Exists (fun b => strs !! stream_id b = None) buffers ->
  (exists f,
      CreateSensorBuffers E cam frame buffers strs pipeline cbk w = inl f) /\
  (forall b rest, buffers = b :: rest -> strs !! stream_id b = None ->
                  CreateSensorBuffers E cam frame buffers strs pipeline cbk w
                  = inl OutOfRange).
Proof.
  intros Hex. split.
  - destruct buffers as [|b rest]; [by apply Exists_nil in Hex |].
    destruct (CreateSensorBuffers_loop_missing cam frame (b :: rest) strs
                pipeline cbk w Hex) as [f Hf].
    exists f. unfold CreateSensorBuffers, bind. by rewrite Hf.
  - intros b rest -> Hb. unfold CreateSensorBuffers, bind.
    cbn [CreateSensorBuffers_loop]. by rewrite Hb.
Qed.

Lemma CreateSensorBuffers_loop_sublist cam frame buffers strs pipeline cbk
    (w w' : World E) (l : Buffers) :
  CreateSensorBuffers_loop E cam frame buffers strs pipeline cbk w
  = inr (l, w') ->
  sublist (stream_buffer <$> l)
    ((fun b => with_status b kError) <$> buffers) /\
  Forall (fun b => frame_number b = frame /\ pipeline_id b = pipeline /\
                   camera_id b = cam /\ callback b = cbk) l.
Proof.
  revert w l. induction buffers as [|b rest IH]; intros w l Hrun.
  - cbn in Hrun. unfold ret in Hrun. simplify_eq. split; constructor.
  - cbn [CreateSensorBuffers_loop] in Hrun.
    destruct (strs !! stream_id b) as [stream|]; [| done].
    apply bind_inr in Hrun as (sb & w1 & Hb & Hrun).
    apply bind_inr in Hrun as (sbs & w2 & Hrest & Hrun).
    unfold ret in Hrun. simplify_eq.
    destruct (IH _ _ Hrest) as [Hsub Hall].
    destruct sb as [sb|].
    + apply CreateSensorBuffer_fields in Hb
        as (? & ? & ? & ? & Hsbuf & _).
      cbn [fmap list_fmap]. rewrite Hsbuf. split.
      * by apply sublist_skip.
      * by constructor.
    + split; [by apply sublist_cons | done].
Qed.

(** X8.  When [CreateSensorBuffers] returns, the result is null exactly for
    an empty list of buffers; otherwise the resolved records are made, in
    order, from a subsequence of the given buffers, each with its status set
    to error, and every record carries the frame number, pipeline id, camera
    id and callback of the call. *)
Theorem X8_CreateSensorBuffers_result cam frame buffers strs pipeline cbk
    (w w' : World E) (res : option Buffers) :
  CreateSensorBuffers E cam frame buffers strs pipeline cbk w = inr (res, w') ->
  (res = None <-> buffers = []) /\
  forall l, res = Some l ->
    length l <= length buffers /\
    sublist (stream_buffer <$> l)
      ((fun b => with_status b kError) <$> buffers) /\
    Forall (fun b => frame_number b = frame /\ pipeline_id b = pipeline /\
                     camera_id b = cam /\ callback b = cbk) l.
Proof.
  destruct buffers as [|b rest]; cbn [CreateSensorBuffers].
  - unfold ret. intros [= <- <-]. split; [done |]. intros l [=].
  - intros Hrun. apply bind_inr in Hrun as (l & w1 & Hloop & Hret).
    unfold ret in Hret. simplify_eq. split; [done |].
    intros l' [= <-].
    apply CreateSensorBuffers_loop_sublist in Hloop as [Hsub Hall].
    split; [| done].
    apply sublist_length in Hsub. by rewrite !length_fmap in Hsub.
Qed.

End MoreResolution.

(** ** Waiting for fences *)

Section MoreAcquire.

Variable E : Collaborators.

Lemma AcquireBuffers_loop_unfenced (bufs : Buffers) (w : World E) :
  Forall (fun b => (acquire_fence_fd b < 0)%Z) bufs ->
  AcquireBuffers_loop E bufs w = inr (bufs, w).
Proof.
  induction 1 as [|b bs Hb _ IH]; [done |].
  cbn [AcquireBuffers_loop].
  destruct (Z.leb_spec 0 (acquire_fence_fd b)); [lia |].
  unfold bind, ret. by rewrite IH.
Qed.

(** X9.  When no record of a non-empty list carries a fence descriptor,
    [AcquireBuffers] returns the list as it is and waits on nothing: the
    world is unchanged.  A null or empty list gives null, again without a
    wait. *)
Theorem X9_AcquireBuffers_without_fences (bufs : Buffers) (w : World E) :
  Forall (fun b => (acquire_fence_fd b < 0)%Z) bufs ->
  AcquireBuffers E (Some bufs) w =
    inr (match bufs with [] => None | _ :: _ => Some bufs end, w) /\
  AcquireBuffers E None w = inr (None, w).
Proof.
  intros Hall. split; [| done].
  destruct bufs as [|b bs]; [done |].
  cbn [AcquireBuffers]. unfold bind, ret.
  by rewrite AcquireBuffers_loop_unfenced.
Qed.

End MoreAcquire.

(** ** Submission *)

Section MoreSubmission.

Variable E : Collaborators.
Variable interference : Proc E -> Proc E -> Prop.

Lemma segment_post_pushed_eq (s s' : Proc E) pushed :
  pending_requests_ s' = pending_requests_ s ++ pushed ->
  pushed_by E s s' = pushed.
Proof. intros Hq. unfold pushed_by. by rewrite Hq, drop_app_length. Qed.

Lemma submit_run_status frame pipelines pc (s s' : Proc E) waits pushed r :
  submit_run E interference frame pipelines pc s waits pushed r s' ->
  match pc with
  | Returned r0 => r = r0 /\ waits = [] /\ pushed = []
  | InWait request rest =>
    (r = OK /\ length pushed = length (request :: rest) /\ timeout ∉ waits) \/
    (r = BAD_VALUE /\ (timeout ∉ waits) /\
     exists bad rest',
       drop (length pushed) (request :: rest) = bad :: rest' /\
       length pipelines <= req_pipeline_id bad) \/
    (r = TIMED_OUT /\ timeout ∈ waits)
  end.
Proof.
  induction 1 as [r s | request rest s s1 result pc s2 waits pushed r s3
                          Hint Hwake Hrun IH]; [done |].
  apply submit_wake_post in Hwake. destruct result.
  - destruct Hwake as (pushed1 & Hq & _ & _ & _ & _ & Hlen1 & _ & Hpc).
    rewrite (segment_post_pushed_eq _ _ _ Hq).
    assert (Hno : forall ws, timeout ∉ ws -> timeout ∉ no_timeout :: ws).
    { intros ws Hws [? | ?]%elem_of_cons; done. }
    destruct pc as [request' rest' | r0].
    + destruct Hpc as [Hdrop _]. rewrite length_app.
      assert (Hl : length (request' :: rest')
                   = length (request :: rest) - length pushed1)
        by (by rewrite <- Hdrop, length_drop).
      destruct IH as [(-> & Hall & Hw) | [(-> & Hw & bad & rest'' & Hd & Hbad)
                                         | (-> & Hw)]].
      * left. split; [done |]. split; [lia | by apply Hno].
      * right; left. split; [done |]. split; [by apply Hno |].
        exists bad, rest''. split; [| done].
        by rewrite <- Hd, <- Hdrop, drop_drop.
      * right; right. split; [done |]. by right.
    + destruct IH as (-> & -> & ->). rewrite app_nil_r.
      destruct Hpc as [[-> Hall] | (-> & bad & rest' & Hd & Hbad)].
      * left. split; [done |]. split; [done |]. apply Hno, not_elem_of_nil.
      * right; left. split; [done |]. split; [apply Hno, not_elem_of_nil |].
        by exists bad, rest'.
  - destruct Hwake as [-> ->]. destruct IH as (-> & -> & ->).
    right; right. split; [done | by left].
Qed.

Lemma push_request_resolved frame pipelines request (s s' : Proc E) :
  push_request E frame pipelines request s = inr (tt, s') ->
  exists p,
    pending_requests_ s' = pending_requests_ s ++ [p] /\
    camera_id_ s' = camera_id_ s /\
    resolved_copy E frame pipelines (camera_id_ s) p request.
Proof.
  unfold push_request, resolved_copy.
  destruct (pipelines !! req_pipeline_id request) as [pipeline|]; [| done].
  intros Hrun.
  apply bind_inr in Hrun as (cam & s1 & Hcam & Hrun). simplify_eq.
  apply bind_inr in Hrun as (outputs & s2 & Hout & Hrun).
  apply in_world_inr in Hout as (Hq2 & _ & _ & Hc2 & Hout).
  apply bind_inr in Hrun as (inputs & s3 & Hin & Hrun).
  apply in_world_inr in Hin as (Hq3 & _ & _ & Hc3 & Hin).
  unfold push_pending, set_pending in Hrun. simplify_eq. cbn.
  eexists. split; [by rewrite Hq3, Hq2 |]. split; [congruence |].
  cbn. split; [done |].
  exists pipeline, (world s1), (world s2), (world s3). done.
Qed.

Lemma prefix_Forall2 {A B : Type} (P : A -> B -> Prop) (rs : list B)
    (l1 l2 : list A) :
  Forall2 P l1 (take (length l1) rs) ->
  Forall2 P l2 (take (length l2) (drop (length l1) rs)) ->
  Forall2 P (l1 ++ l2) (take (length (l1 ++ l2)) rs).
Proof.
  intros H1 H2. rewrite length_app, <- take_take_drop. by apply Forall2_app.
Qed.

Lemma submit_requests_resolved frame pipelines requests (s s' : Proc E) pc :
  submit_requests E frame pipelines requests s = inr (pc, s') ->
  Forall2 (resolved_copy E frame pipelines (camera_id_ s))
    (pushed_by E s s') (take (length (pushed_by E s s')) requests).
Proof.
  revert s. induction requests as [|request rest IH]; intros s Hrun.
  - cbn in Hrun. unfold ret in Hrun. simplify_eq.
    unfold pushed_by. rewrite drop_all. constructor.
  - cbn [submit_requests] in Hrun.
    destruct (length pipelines <=? req_pipeline_id request).
    + unfold ret in Hrun. simplify_eq.
      unfold pushed_by. rewrite drop_all. constructor.
    + unfold wait_or_push in Hrun.
      destruct (kPipelineDepth E <? length (pending_requests_ s)).
      * simplify_eq. unfold pushed_by. rewrite drop_all. constructor.
      * apply bind_inr in Hrun as ([] & s1 & Hpush & Hrun).
        apply push_request_resolved in Hpush as (p & Hq & Hc & Hp).
        pose proof (IH _ Hrun) as Hrest. rewrite Hc in Hrest.
        apply submit_requests_post, segment_post_pushed in Hrun.
        assert (pushed_by E s s' = p :: pushed_by E s1 s') as ->.
        { apply segment_post_pushed_eq.
          by rewrite Hrun, Hq, <- app_assoc. }
        cbn [length take]. by constructor.
Qed.

Lemma submit_wake_resolved frame pipelines result request rest
    (s s' : Proc E) pc :
  submit_wake E frame pipelines result request rest s = inr (pc, s') ->
  Forall2 (resolved_copy E frame pipelines (camera_id_ s))
    (pushed_by E s s') (take (length (pushed_by E s s')) (request :: rest)).
Proof.
  destruct result; cbn [submit_wake]; intros Hrun.
  - unfold wait_or_push in Hrun.
    destruct (kPipelineDepth E <? length (pending_requests_ s)).
    + simplify_eq. unfold pushed_by. rewrite drop_all. constructor.
    + apply bind_inr in Hrun as ([] & s1 & Hpush & Hrun).
      apply push_request_resolved in Hpush as (p & Hq & Hc & Hp).
      pose proof (submit_requests_resolved _ _ _ _ _ _ Hrun) as Hrest.
      rewrite Hc in Hrest.
      apply submit_requests_post, segment_post_pushed in Hrun.
      assert (pushed_by E s s' = p :: pushed_by E s1 s') as ->.
      { apply segment_post_pushed_eq. by rewrite Hrun, Hq, <- app_assoc. }
      cbn [length take]. by constructor.
  - unfold ret in Hrun. simplify_eq.
    unfold pushed_by. rewrite drop_all. constructor.
Qed.

Lemma submit_run_resolved frame pipelines pc (s s' : Proc E) waits pushed r :
  (forall a b, interference a b -> camera_id_ b = camera_id_ a) ->
  submit_run E interference frame pipelines pc s waits pushed r s' ->
  Forall2 (resolved_copy E frame pipelines (camera_id_ s)) pushed
    (take (length pushed) (remaining pc)).
Proof.
  intros Hcam.
  induction 1 as [r s | request rest s s1 result pc s2 waits pushed r s3
                          Hint Hwake Hrun IH]; [constructor |].
  pose proof (submit_wake_resolved _ _ _ _ _ _ _ _ Hwake) as Hfirst.
  rewrite (Hcam _ _ Hint) in Hfirst.
  apply submit_wake_post in Hwake. cbn [remaining].
  destruct result.
  - pose proof (segment_post_pushed_by E _ _ _ _ _ Hwake)
      as (_ & _ & _ & Hpc).
    destruct Hwake as (_ & _ & _ & _ & Hc & _).
    rewrite Hc, (Hcam _ _ Hint) in IH.
    apply prefix_Forall2; [done |].
    destruct pc as [request' rest' | r0]; [by rewrite Hpc |].
    cbn [remaining] in IH. rewrite take_nil in IH.
    apply Forall2_nil_inv_r in IH as ->. constructor.
  - destruct Hwake as [-> ->]. inversion Hrun; subst.
    rewrite app_nil_r. done.
Qed.

(** X10.  A call of [ProcessPipelineRequests] that returns has one of three
    statuses.  [OK]: every request of the call was pushed and no wait timed
    out.  [BAD_VALUE]: no wait timed out and the first request that was not
    pushed has a pipeline id outside the pipeline table.  [TIMED_OUT]: a wait
    timed out.  In each case the pushed requests are, in order, the resolved
    copies of the requests before the one at which the call stopped: each
    has the settings of its request, its output buffers are resolved from
    the request's output buffers against the streams of the request's
    pipeline, and its input buffers from the request's input buffers, with
    the camera id of the processor, which no thread changes. *)
Theorem X10_ProcessPipelineRequests_status frame requests pipelines
    (s s' : Proc E) waits pushed r :
  ProcessPipelineRequests E interference frame requests pipelines
    s waits pushed r s' ->
  Forall2 (fun p q => settings p = req_settings q) pushed
    (take (length pushed) requests) /\
  ((forall a b, interference a b -> camera_id_ b = camera_id_ a) ->
   Forall2 (resolved_copy E frame pipelines (camera_id_ s)) pushed
     (take (length pushed) requests)) /\
  ((r = OK /\ length pushed = length requests /\ timeout ∉ waits) \/
   (r = BAD_VALUE /\ (timeout ∉ waits) /\
    exists bad rest,
      drop (length pushed) requests = bad :: rest /\
      length pipelines <= req_pipeline_id bad) \/
   (r = TIMED_OUT /\ timeout ∈ waits)).
Proof.
  intros Hcall.
  destruct Hcall as [s pc s1 waits pushed r s' Hfirst Hrun].
  pose proof (submit_requests_resolved _ _ _ _ _ _ Hfirst) as Hres1.
  apply submit_requests_post in Hfirst.
  pose proof (submit_run_post E interference _ _ _ _ _ _ _ _ Hrun)
    as (Hall2 & Hlen2 & _ & _).
  pose proof (fun Hcam => submit_run_resolved _ _ _ _ _ _ _ _ Hcam Hrun)
    as Hres2.
  apply submit_run_status in Hrun.
  destruct Hfirst as (pushed1 & Hq & _ & _ & Hc & Hall1 & Hlen1 & _ & Hpc).
  rewrite (segment_post_pushed_eq _ _ _ Hq) in *.
  assert (Hno : timeout ∉ @nil cv_status) by apply not_elem_of_nil.
  destruct pc as [request rest | r0].
  - destruct Hpc as [Hdrop _]. cbn [remaining] in Hall2, Hlen2, Hres2.
    assert (Hl : length (request :: rest) = length requests - length pushed1)
      by (by rewrite <- Hdrop, length_drop).
    split; [apply prefix_pushed; [done | by rewrite Hdrop] |].
    split.
    { intros Hcam. apply prefix_Forall2; [done |].
      rewrite Hdrop, <- Hc. by apply Hres2. }
    rewrite length_app.
    destruct Hrun as [(-> & Hall & Hw) | [(-> & Hw & bad & rest' & Hd & Hbad)
                                         | (-> & Hw)]].
    + left. split; [done |]. split; [lia | done].
    + right; left. split; [done |]. split; [done |].
      exists bad, rest'. split; [| done]. by rewrite <- Hd, <- Hdrop, drop_drop.
    + right; right. done.
  - destruct Hrun as (-> & -> & ->). rewrite app_nil_r. split; [done |].
    split; [done |].
    destruct Hpc as [[-> Hall] | (-> & bad & rest' & Hd & Hbad)].
    + left. done.
    + right; left. split; [done |]. split; [done |]. by exists bad, rest'.
Qed.

(** X11.  A segment of a submission, from the start of the call or from a
    wake-up, emits no event and leaves the remembered settings and the camera
    id alone; the queue it leaves starts with the queue it found. *)
Theorem X11_submission_only_appends frame pipelines requests result request
    rest (s s' : Proc E) pc :
  submit_requests E frame pipelines requests s = inr (pc, s') \/
  submit_wake E frame pipelines result request rest s = inr (pc, s') ->
  trace s' = trace s /\
  last_settings_ s' = last_settings_ s /\
  camera_id_ s' = camera_id_ s /\
  pending_requests_ s `prefix_of` pending_requests_ s'.
Proof.
  intros [Hrun | Hrun].
  - apply submit_requests_post in Hrun
      as (pushed & Hq & Hl & Ht & Hc & _).
    repeat split; try done. by exists pushed.
  - apply submit_wake_post in Hrun. destruct result.
    + destruct Hrun as (pushed & Hq & Hl & Ht & Hc & _).
      repeat split; try done. by exists pushed.
    + destruct Hrun as [_ ->]. done.
Qed.

(** X12.  A call whose requests all name a pipeline of the table and fit
    under the bound, the queue length plus the number of requests being at
    most [kPipelineDepth + 1], never blocks: when its first segment returns,
    the call has returned [OK] and every request is queued. *)
Theorem X12_submission_within_depth frame pipelines requests
    (s s' : Proc E) pc :
  submit_requests E frame pipelines requests s = inr (pc, s') ->
  forallb (valid_pipeline pipelines) requests = true ->
  length (pending_requests_ s) + length requests <= kPipelineDepth E + 1 ->
  pc = Returned OK /\
  length (pending_requests_ s')
  = length (pending_requests_ s) + length requests.
Proof.
  intros Hrun Hvalid Hfit. apply submit_requests_post in Hrun.
  destruct Hrun as (pushed & Hq & _ & _ & _ & _ & Hlen & _ & Hpc).
  rewrite Hq, length_app.
  assert (Hdrop : forall x rest,
             drop (length pushed) requests = x :: rest ->
             length pushed < length requests /\ x ∈ requests).
  { intros x rest Hd. split.
    - destruct (decide (length pushed < length requests)); [done |].
      rewrite drop_ge in Hd by lia. done.
    - rewrite <- (take_drop (length pushed) requests), Hd.
      apply elem_of_app. right. by left. }
  destruct pc as [request rest | r].
  - destruct Hpc as [Hd Hfull]. apply Hdrop in Hd as [Hlt _].
    rewrite Hq, length_app in Hfull. lia.
  - destruct Hpc as [[-> Hall] | (-> & bad & rest & Hd & Hbad)]; [by rewrite Hall |].
    apply Hdrop in Hd as [_ Hin].
    rewrite forallb_forall in Hvalid.
    apply list_elem_of_In, Hvalid in Hin. unfold valid_pipeline in Hin.
    apply Nat.ltb_lt in Hin. lia.
Qed.

(** X13.  A call whose requests all name a pipeline of the table and do not
    fit under the bound blocks: when its first segment returns, the call
    waits in front of one of its requests with exactly [kPipelineDepth + 1]
    requests queued, the ones it found and the first of its own. *)
Theorem X13_submission_over_depth frame pipelines requests
    (s s' : Proc E) pc :
  submit_requests E frame pipelines requests s = inr (pc, s') ->
  forallb (valid_pipeline pipelines) requests = true ->
  length (pending_requests_ s) <= kPipelineDepth E + 1 ->
  kPipelineDepth E + 1 < length (pending_requests_ s) + length requests ->
  exists request rest,
    pc = InWait request rest /\
    length (pending_requests_ s') = kPipelineDepth E + 1 /\
    length rest + 1
    = length (pending_requests_ s) + length requests - (kPipelineDepth E + 1).
Proof.
  intros Hrun Hvalid Hbound Hover. apply submit_requests_post in Hrun.
  destruct Hrun as (pushed & Hq & _ & _ & _ & _ & Hlen & Hb & Hpc).
  destruct pc as [request rest | r].
  - destruct Hpc as [Hd Hfull]. exists request, rest. split; [done |].
    assert (length (pending_requests_ s') = kPipelineDepth E + 1) as Heq by lia.
    split; [done |].
    assert (length (request :: rest) = length requests - length pushed) as Hl
      by (by rewrite <- Hd, length_drop).
    rewrite Hq, length_app in Heq. cbn in Hl. lia.
  - exfalso. destruct Hpc as [[-> Hall] | (-> & bad & rest & Hd & Hbad)].
    + rewrite Hq, length_app in Hb. lia.
    + assert (bad ∈ requests) as Hin.
      { rewrite <- (take_drop (length pushed) requests), Hd.
        apply elem_of_app. right. by left. }
      rewrite forallb_forall in Hvalid.
      apply list_elem_of_In, Hvalid in Hin. unfold valid_pipeline in Hin.
      apply Nat.ltb_lt in Hin. lia.
Qed.

End MoreSubmission.

(** ** Flush and the worker *)

Section MoreWorker.

Variable E : Collaborators.

(** X14.  After a [Flush] the queue is empty, so that an iteration of the
    worker changes nothing, and a second [Flush] only asks the sensor to
    flush again: it emits no notification and returns the sensor's status. *)
Theorem X14_Flush_then_idle (s s' : Proc E) (r : status_t) :
  Flush E s = inr (r, s') ->
  RequestProcessorLoop_body E s' = inr (tt, s') /\
  exists s'',
    Flush E s' = inr ((sensor_Flush E (world s')).1, s'') /\
    pending_requests_ s'' = [] /\
    last_settings_ s'' = last_settings_ s /\
    trace s'' = trace s' ++ [EvSensorFlush] /\
    notifications (trace s'') = notifications (trace s').
Proof.
  intros Hrun. apply Flush_inv in Hrun as (_ & _ & ->).
  split; [by apply body_empty |].
  eexists. split; [by apply Flush_run |]. cbn.
  repeat split. unfold notifications. rewrite !omap_app. cbn.
  by rewrite !app_nil_r.
Qed.

(** X15.  When the request at the head has a first output buffer, its
    settings resolve with [OK] and at least one output buffer is acquired,
    the iteration hands the settings, the result, the acquired input buffers
    and the acquired output buffers to the sensor in one call, delivers no
    notification, pops the request and remembers its settings if it carried
    any.  No callee is needed for that. *)
Theorem X15_worker_dispatches (s : Proc E) request rest b bs st w1 outs w2
    result w3 inputs w4 :
  pending_requests_ s = request :: rest ->
  output_buffers request = Some (b :: bs) ->
  InitializeSensorSettings E (effective_settings (last_settings_ s) request)
    (world s) = ((OK, st), w1) ->
  AcquireBuffers_loop E (b :: bs) w1 = inr (outs, w2) ->
  outs <> [] ->
  InitializeResult E (pipeline_id b) (frame_number b) w2 = (result, w3) ->
  AcquireBuffers E (input_buffers request) w3 = inr (inputs, w4) ->
  exists s',
    RequestProcessorLoop_body E s = inr (tt, s') /\
    pending_requests_ s' = rest /\
    world s' = w4 /\
    last_settings_ s' = effective_settings (last_settings_ s) request /\
    trace s' = trace s ++
      [EvInitializeSensorSettings
         (effective_settings (last_settings_ s) request);
       EvSetCurrentRequest st result inputs (Some outs)] /\
    notifications (trace s') = notifications (trace s).
Proof.
  intros Hq Hout Hinit Hacq Hne Hres Hin.
  unfold RequestProcessorLoop_body. rewrite Hq.
  unfold bind at 1, first_output_buffer. rewrite Hout.
  cbn [lift_fault]. unfold ret at 1. unfold effective_settings in *.
  destruct s as [cam q last w tr]. cbn [pending_requests_ last_settings_
    world trace] in *. subst q.
  destruct outs as [|o outs]; [done |].
  destruct (settings request) as [m|];
    unfold bind, emit, in_world, call, set_last_settings, set_pending, ret,
      Clone, pop_pending;
    cbn [pending_requests_ last_settings_ world trace camera_id_
           AcquireBuffers tail];
    rewrite Hinit; unfold bind;
    cbn [pending_requests_ last_settings_ world trace camera_id_];
    rewrite Hacq; unfold ret;
    cbn [andb Z.eqb OK pending_requests_ last_settings_ world trace
           camera_id_ tail];
    rewrite Hres;
    cbn [pending_requests_ last_settings_ world trace camera_id_ tail];
    rewrite Hin;
    cbn [pending_requests_ last_settings_ world trace camera_id_ tail];
    (eexists; split; [reflexivity |]); cbn;
    rewrite <- !app_assoc; repeat split;
    unfold notifications; rewrite omap_app; cbn; by rewrite app_nil_r.
Qed.

Lemma notifications_app tr1 tr2 :
  notifications (tr1 ++ tr2) = notifications tr1 ++ notifications tr2.
Proof. apply omap_app. Qed.

Lemma flush_notifications_count d :
  length (notifications (flush_notifications d)) <= length d /\
  (forallb has_notify d = true ->
   length (notifications (flush_notifications d)) = length d).
Proof.
  induction d as [|request rest [IH1 IH2]]; [done |].
  unfold flush_notifications in *. cbn [map concat forallb length].
  rewrite notifications_app, length_app.
  assert (Hreq : length (notifications (flush_notification request)) <= 1 /\
                 (has_notify request = true ->
                  length (notifications (flush_notification request)) = 1)).
  { unfold flush_notification, has_notify.
    destruct (output_buffers request) as [[|b bs]|]; try (cbn; split; [lia | done]).
    destruct (notify (callback b)) as [callee|]; cbn; (split; [lia | done]). }
  destruct Hreq as [Hr1 Hr2]. split; [lia |].
  intros [Ha Hb]%andb_prop. rewrite Hr2, IH2 by done. done.
Qed.

(** What a step adds to the trace, counted against what it removes from the
    queue. *)
Lemma step_responses (s s' : Proc E) l :
  step E s l s' ->
  exists evs,
    trace s' = trace s ++ evs /\
    length (settings_calls evs)
    = length (match l with LTake (Some r) => [r] | _ => [] end) /\
    length (dispatches evs) + length (notifications evs)
    <= length (match l with
               | LTake (Some r) => [r]
               | LDrain d => d
               | _ => []
               end) /\
    (forallb has_notify (match l with LDrain d => d | _ => [] end) = true ->
     length (dispatches evs) + length (notifications evs)
     = length (match l with
               | LTake (Some r) => [r]
               | LDrain d => d
               | _ => []
               end)).
Proof.
  intros Hstep.
  destruct Hstep as [frame pipelines requests s pc s' Hrun
                    | frame pipelines result request rest s pc s' Hrun
                    | s s' Hrun | s r s' Hrun | s b w Hw].
  - apply submit_requests_post in Hrun as (_ & _ & _ & Ht & _).
    exists []. by rewrite app_nil_r.
  - apply submit_wake_post in Hrun. exists []. rewrite app_nil_r.
    destruct result; [by destruct Hrun as (_ & _ & _ & Ht & _) |].
    by destruct Hrun as [_ ->].
  - destruct (pending_requests_ s) as [|request rest] eqn:Hq; cbn [head].
    + rewrite body_empty in Hrun by done. simplify_eq.
      exists []. by rewrite app_nil_r.
    + destruct (body_inv E s s' request rest Hq Hrun)
        as (b & bs & r & st & w1 & outs & w2 & _ & _ & _ & _ & _ & _ & Hcases).
      destruct Hcases as [(_ & _ & result & w3 & inputs & _ & _ & Ht)
                         | (_ & callee & _ & _ & Ht)];
        eexists; (split; [exact Ht |]); done.
  - apply Flush_inv in Hrun as (_ & _ & ->). cbn [trace].
    eexists. split; [done |].
    destruct (flush_notifications_quiet (pending_requests_ s)) as [Hs Hd].
    destruct (flush_notifications_count (pending_requests_ s)) as [Hle Heq].
    assert (Hs1 : settings_calls [EvSensorFlush] = []) by done.
    assert (Hd1 : dispatches [EvSensorFlush] = []) by done.
    assert (Hn1 : notifications [EvSensorFlush] = []) by done.
    change (EvSensorFlush :: flush_notifications (pending_requests_ s))
      with ([EvSensorFlush] ++ flush_notifications (pending_requests_ s)).
    rewrite settings_calls_app, dispatches_app, notifications_app,
      Hs, Hd, Hs1, Hd1, Hn1.
    cbn [app length Nat.add]. done.
  - exists []. by rewrite app_nil_r.
Qed.

(** X16.  Along every interleaving from an empty trace, every request the
    worker took caused exactly one call of [InitializeSensorSettings], and
    the dispatches to the sensor and the notifications together are at most
    the requests removed from the queue: no request is answered twice.  They
    are exactly as many when every flushed request named a callee. *)
Theorem X16_one_answer_per_request (s0 s : Proc E) (ls : list Label) :
  exec E s0 ls s ->
  trace s0 = [] ->
  length (settings_calls (trace s)) = length (worker_takes ls) /\
  length (dispatches (trace s)) + length (notifications (trace s))
  <= length (removals ls) /\
  (forallb has_notify
     (concat (map (fun l => match l with LDrain d => d | _ => [] end) ls))
   = true ->
   length (dispatches (trace s)) + length (notifications (trace s))
   = length (removals ls)).
Proof.
  intros Hexec Ht0.
  induction Hexec as [s | s ls s1 l s2 Hexec IH Hstep].
  - rewrite Ht0. done.
  - destruct (IH Ht0) as (Hcalls & Hle & Heq). clear IH.
    apply step_responses in Hstep as (evs & -> & Hc & Hl & He).
    rewrite worker_takes_snoc, removals_snoc, settings_calls_app,
      dispatches_app, notifications_app, !length_app.
    split; [lia |]. split; [lia |].
    rewrite map_app, concat_app, forallb_app. cbn [map concat].
    rewrite app_nil_r. intros [H1 H2]%andb_prop.
    specialize (Heq H1). specialize (He H2). lia.
Qed.

(** X17.  Along every interleaving the trace only grows, and settings once
    remembered are never forgotten: when the remembered blob is not null in
    a state, it is not null in any later state. *)
Theorem X17_settings_and_trace_persist (s0 s : Proc E) (ls : list Label) :
  exec E s0 ls s ->
  trace s0 `prefix_of` trace s /\
  (is_Some (last_settings_ s0) -> is_Some (last_settings_ s)).
Proof.
  induction 1 as [s | s ls s1 l s2 Hexec [IHt IHl] Hstep]; [done |].
  pose proof (step_responses _ _ _ Hstep) as (evs & Ht & _).
  split.
  - etrans; [exact IHt |]. rewrite Ht. by apply prefix_app_r.
  - intros H0. specialize (IHl H0). apply step_inv in Hstep.
    destruct l as [p | [r|] | d |].
    + destruct Hstep as (_ & _ & -> & _). done.
    + destruct Hstep as (_ & -> & _). unfold effective_settings.
      by destruct (settings r).
    + destruct Hstep as [_ ->]. done.
    + destruct Hstep as (_ & _ & -> & _). done.
    + destruct Hstep as (_ & -> & _). done.
Qed.

End MoreWorker.

(** ** The worker thread alone *)

Section MoreLoop.

Variable E : Collaborators.

Lemma exec_cons (s s1 s2 : Proc E) l ls :
  step E s l s1 -> exec E s1 ls s2 -> exec E s (l :: ls) s2.
Proof.
  intros Hstep Hexec. induction Hexec as [s1 | s1 ls s2 l' s3 _ IH Hstep'].
  - change [l] with ([] ++ [l]). eapply exec_snoc; [apply exec_nil | done].
  - change (l :: ls ++ [l']) with ((l :: ls) ++ [l']).
    eapply exec_snoc; [by apply IH | done].
Qed.

Lemma RequestProcessorLoop_iterations (n : nat) (more : list bool)
    (s s' : Proc E) (b : bool) :
  RequestProcessorLoop E (replicate n false ++ true :: more) s = inr (b, s') ->
  b = true /\
  pending_requests_ s' = drop n (pending_requests_ s) /\
  exists ls,
    exec E s ls s' /\
    worker_takes ls = take n (pending_requests_ s) /\
    removals ls = take n (pending_requests_ s) /\
    pushes ls = [].
Proof.
  revert s. induction n as [|n IH]; intros s Hrun.
  - cbn in Hrun. unfold ret in Hrun. simplify_eq.
    split; [done |]. split; [by rewrite drop_0 |].
    exists []. split; [constructor |]. by rewrite take_0.
  - cbn [replicate app RequestProcessorLoop] in Hrun.
    apply bind_inr in Hrun as ([] & s1 & Hbody & Hrun).
    apply bind_inr in Hrun as (v & s2 & Hsync & Hrun).
    assert (Hstep1 : step E s (LTake (head (pending_requests_ s))) s1)
      by (by apply step_worker).
    assert (Hstep2 : step E s1 LVSync s2).
    { unfold in_world, call in Hsync. cbn in Hsync.
      destruct (sensor_WaitForVSync E (kMaxFrameDuration E) (world s1))
        as [v' w] eqn:Hw.
      simplify_eq. by eapply step_vsync. }
    pose proof (step_inv E _ _ _ Hstep1) as Hinv1.
    pose proof (step_inv E _ _ _ Hstep2) as (Hq2 & _).
    destruct (IH s2 Hrun) as (-> & Hq' & ls & Hexec & Htakes & Hrem & Hpush).
    split; [done |].
    assert (Hexec' : exec E s (LTake (head (pending_requests_ s)) :: LVSync :: ls)
                       s')
      by (eapply exec_cons; [done |]; eapply exec_cons; done).
    destruct (pending_requests_ s) as [|request rest] eqn:Hq;
      cbn [head] in Hinv1, Hexec'.
    + destruct Hinv1 as [_ ->]. rewrite Hq2, Hq in Hq', Htakes, Hrem.
      split; [by rewrite Hq', !drop_nil |].
      eexists. split; [exact Hexec' |].
      unfold worker_takes, removals, pushes in *. cbn [map concat app].
      rewrite Htakes, Hrem, Hpush. by rewrite !take_nil.
    + destruct Hinv1 as (Hq1 & _). simplify_eq.
      rewrite Hq2 in Hq', Htakes, Hrem.
      split; [done |].
      eexists. split; [exact Hexec' |].
      unfold worker_takes, removals, pushes in *. cbn [map concat app].
      rewrite Htakes, Hrem, Hpush. done.
Qed.

(** X18.  Left alone, the worker thread that reads [processor_done_] as
    false [n] times and then as true exits after [n] iterations; it has taken
    the first [n] requests of the queue, in queue order, one per iteration,
    pushed nothing, and leaves the rest of the queue.  Its run is one of the
    interleavings, so what holds along every interleaving holds for it. *)
Theorem X18_worker_loop_takes_in_order (n : nat) (more : list bool)
    (s s' : Proc E) (b : bool) :
  RequestProcessorLoop E (replicate n false ++ true :: more) s = inr (b, s') ->
  b = true /\
  pending_requests_ s' = drop n (pending_requests_ s) /\
  exists ls,
    exec E s ls s' /\
    worker_takes ls = take n (pending_requests_ s) /\
    removals ls = take n (pending_requests_ s) /\
    pushes ls = [].
Proof. apply RequestProcessorLoop_iterations. Qed.

End MoreLoop.

(** ** The further properties at concrete inputs *)

Lemma X2_witness :
  (0 <= width (example_stream HAL_PIXEL_FORMAT_RAW16 0 640 480 0) < 32768)%Z /\
  GetBufferSizeAndStride (example_collaborators true true true)
    (example_stream HAL_PIXEL_FORMAT_RAW16 0 640 480 0) (Some 0%Z) (Some 0%Z)
  = inr (OK, Some (640 * 2 * 640)%Z, Some (640 * 2)%Z).
Proof.
  split; [cbn; lia |].
  apply (X2_flat_sizes_exact (example_collaborators true true true)
           (example_stream HAL_PIXEL_FORMAT_RAW16 0 640 480 0) 2 0 0).
  - cbn. lia.
  - left. split; reflexivity.
Defined.

Lemma X4_witness :
  OK = OK <->
  is_Some (format_table (example_collaborators false true true)
             (example_stream HAL_PIXEL_FORMAT_RAW16 0 640 480 0)).
Proof.
  refine (proj1 (proj2 (X4_LockSensorBuffer_status
                          (example_collaborators false true true)
                          (example_stream HAL_PIXEL_FORMAT_RAW16 0 640 480 0)
                          1%Z (example_buffer 1 (-1) example_callback) tt tt OK
                          (Some (with_plane
                                   (example_buffer 1 (-1) example_callback)
                                   (SinglePlane 0 1280 819200)))
                          eq_refl) _)).
  discriminate.
Defined.

Lemma X5_witness :
  CreateSensorBuffer (example_collaborators true true true) 0 1
    (example_stream 0 0 640 480 0) 0 example_callback
    (example_stream_buffer (Some 9%Z)) tt
  = inl NullDeref.
Proof.
  refine (proj2 (proj2 (proj2 (X5_CreateSensorBuffer_faults
                                 (example_collaborators true true true) 0 1
                                 (example_stream 0 0 640 480 0) 0
                                 example_callback
                                 (example_stream_buffer (Some 9%Z)) tt)))
            _ eq_refl _).
  - discriminate.
  - by eexists.
Defined.

Lemma X6_witness :
  frame_number (example_buffer 1 (-1) example_callback) = 1%Z /\
  status (stream_buffer (example_buffer 1 (-1) example_callback)) = kError.
Proof.
  pose proof (X6_CreateSensorBuffer_record
                (example_collaborators true true true) 0 1
                (example_stream HAL_PIXEL_FORMAT_RAW16 0 640 480 0) 0
                example_callback (example_stream_buffer None) tt tt
                (example_buffer 1 (-1) example_callback) eq_refl)
    as (Hf & _ & _ & _ & _ & Hs & _).
  exact (conj Hf Hs).
Defined.

Lemma X7_witness :
  exists f,
    CreateSensorBuffers (example_collaborators true true true) 0 1
      [example_stream_buffer None] ∅ 0 example_callback tt = inl f.
Proof.
  refine (proj1 (X7_CreateSensorBuffers_missing_stream
                   (example_collaborators true true true) 0 1
                   [example_stream_buffer None] ∅ 0 example_callback tt _)).
  apply Exists_cons_hd. reflexivity.
Defined.

Lemma X8_witness :
  (Some [example_buffer 1 (-1) example_callback] = None <->
   [example_stream_buffer None] = []) /\
  length [example_buffer 1 (-1) example_callback]
  <= length [example_stream_buffer None].
Proof.
  pose proof (X8_CreateSensorBuffers_result
                (example_collaborators true true true) 0 1
                [example_stream_buffer None]
                (streams (example_pipeline HAL_PIXEL_FORMAT_RAW16)) 0
                example_callback tt tt
                (Some [example_buffer 1 (-1) example_callback]) eq_refl)
    as [Hnull Hres].
  split; [exact Hnull |].
  exact (proj1 (Hres _ eq_refl)).
Defined.

Lemma X9_witness :
  AcquireBuffers (example_collaborators true true false)
    (Some [example_buffer 1 (-1) example_callback]) tt
  = inr (Some [example_buffer 1 (-1) example_callback], tt).
Proof.
  refine (proj1 (X9_AcquireBuffers_without_fences
                   (example_collaborators true true false)
                   [example_buffer 1 (-1) example_callback] tt _)).
  apply Forall_cons. split; [cbn; lia | apply Forall_nil_2].
Defined.

Lemma X10_witness :
  Forall2 (resolved_copy (example_collaborators true true true) 3%Z
             [example_pipeline HAL_PIXEL_FORMAT_RAW16]
             (camera_id_ example_busy))
    (pushed_by (example_collaborators true true true)
       example_busy example_blocked ++
     (pushed_by _ example_blocked example_blocked ++ []))
    (take (length (pushed_by (example_collaborators true true true)
                     example_busy example_blocked ++
                   (pushed_by _ example_blocked example_blocked ++ [])))
       example_run_requests) /\
  TIMED_OUT = TIMED_OUT /\ timeout ∈ [timeout].
Proof.
  pose proof (X10_ProcessPipelineRequests_status
                (example_collaborators true true true) eq 3%Z
                example_run_requests
                [example_pipeline HAL_PIXEL_FORMAT_RAW16]
                example_busy example_blocked [timeout] _ TIMED_OUT
                example_call_times_out)
    as (_ & Hres & _).
  split; [| split; [reflexivity | left]].
  apply Hres. intros a b Hab. by rewrite Hab.
Defined.

(** The first segment of the two example calls. *)
Lemma example_run_first_segment :
  submit_requests (example_collaborators true true true) 1%Z
    [example_pipeline HAL_PIXEL_FORMAT_RAW16] example_run_requests
    (example_proc true true true [])
  = inr (Returned OK, example_run_1).
Proof. vm_compute. reflexivity. Qed.

Lemma example_busy_first_segment :
  submit_requests (example_collaborators true true true) 3%Z
    [example_pipeline HAL_PIXEL_FORMAT_RAW16] example_run_requests
    example_busy
  = inr (InWait (example_request None [example_stream_buffer None]) [],
         example_blocked).
Proof. vm_compute. reflexivity. Qed.

Lemma X11_witness :
  trace example_run_1 = trace (example_proc true true true []) /\
  last_settings_ example_run_1
  = last_settings_ (example_proc true true true []) /\
  camera_id_ example_run_1 = camera_id_ (example_proc true true true []) /\
  pending_requests_ (example_proc true true true [])
    `prefix_of` pending_requests_ example_run_1.
Proof.
  apply (X11_submission_only_appends (example_collaborators true true true)
           1%Z [example_pipeline HAL_PIXEL_FORMAT_RAW16] example_run_requests
           timeout (example_request None []) []
           (example_proc true true true []) example_run_1 (Returned OK)).
  left. exact example_run_first_segment.
Defined.

Lemma X12_witness :
  Returned OK = Returned OK /\
  length (pending_requests_ example_run_1)
  = length (pending_requests_ (example_proc true true true []))
    + length example_run_requests.
Proof.
  apply (X12_submission_within_depth (example_collaborators true true true)
           1%Z [example_pipeline HAL_PIXEL_FORMAT_RAW16] example_run_requests
           (example_proc true true true []) example_run_1 (Returned OK)
           example_run_first_segment).
  - reflexivity.
  - cbn. lia.
Defined.

Lemma X13_witness :
  exists request rest,
    InWait (example_request None [example_stream_buffer None]) []
    = InWait request rest /\
    length (pending_requests_ example_blocked)
    = kPipelineDepth (example_collaborators true true true) + 1 /\
    length rest + 1
    = length (pending_requests_ example_busy) + length example_run_requests
      - (kPipelineDepth (example_collaborators true true true) + 1).
Proof.
  apply (X13_submission_over_depth (example_collaborators true true true)
           3%Z [example_pipeline HAL_PIXEL_FORMAT_RAW16] example_run_requests
           example_busy example_blocked _ example_busy_first_segment).
  - reflexivity.
  - cbn. lia.
  - cbn. lia.
Defined.

Lemma example_busy_flush :
  Flush (example_collaborators true true true) example_busy
  = inr (OK, state_after (Flush (example_collaborators true true true)
                            example_busy) example_busy).
Proof. vm_compute. reflexivity. Qed.

Lemma X14_witness :
  RequestProcessorLoop_body (example_collaborators true true true)
    (state_after (Flush (example_collaborators true true true) example_busy)
       example_busy)
  = inr (tt, state_after (Flush (example_collaborators true true true)
                            example_busy) example_busy).
Proof.
  exact (proj1 (X14_Flush_then_idle (example_collaborators true true true)
                  example_busy _ OK example_busy_flush)).
Defined.

Lemma X15_witness :
  exists s',
    RequestProcessorLoop_body (example_collaborators true true true)
      example_run_1 = inr (tt, s') /\
    pending_requests_ s'
    = [example_pending None (Some [example_buffer 1 (-1) example_callback])] /\
    world s' = tt /\
    last_settings_ s' = Some (MetadataBlob 11) /\
    trace s' = trace example_run_1 ++
      [EvInitializeSensorSettings (Some (MetadataBlob 11));
       EvSetCurrentRequest (SettingsValue 11) (ResultValue 1) None
         (Some [example_buffer 1 (-1) example_callback])] /\
    notifications (trace s') = notifications (trace example_run_1).
Proof.
  apply (X15_worker_dispatches (example_collaborators true true true)
           example_run_1
           (example_pending (Some (MetadataBlob 11))
              (Some [example_buffer 1 (-1) example_callback]))
           [example_pending None (Some [example_buffer 1 (-1) example_callback])]
           (example_buffer 1 (-1) example_callback) [] (SettingsValue 11) tt
           [example_buffer 1 (-1) example_callback] tt (ResultValue 1) tt
           None tt);
    try reflexivity.
  discriminate.
Defined.

Lemma X16_witness :
  length (settings_calls (trace example_run_3))
  = length (worker_takes example_run_labels) /\
  length (dispatches (trace example_run_3))
  + length (notifications (trace example_run_3))
  <= length (removals example_run_labels).
Proof.
  pose proof (X16_one_answer_per_request
                (example_collaborators true true true)
                (example_proc true true true []) example_run_3
                example_run_labels example_run_exec eq_refl)
    as (Hc & Hle & _).
  exact (conj Hc Hle).
Defined.

Lemma X17_witness :
  trace (example_proc true true true []) `prefix_of` trace example_run_3.
Proof.
  exact (proj1 (X17_settings_and_trace_persist
                  (example_collaborators true true true)
                  (example_proc true true true []) example_run_3
                  example_run_labels example_run_exec)).
Defined.

Lemma example_loop_run :
  RequestProcessorLoop (example_collaborators true true true)
    (replicate 2 false ++ true :: []) example_run_1
  = inr (true, example_run_3).
Proof. vm_compute. reflexivity. Qed.

Lemma X18_witness :
  true = true /\
  pending_requests_ example_run_3 = drop 2 (pending_requests_ example_run_1).
Proof.
  pose proof (X18_worker_loop_takes_in_order
                (example_collaborators true true true) 2 []
                example_run_1 example_run_3 true example_loop_run)
    as (Hb & Hq & _).
  exact (conj Hb Hq).
Defined.

(** ** Requests the worker fails *)

Section MoreFailures.

Variable E : Collaborators.

Lemma AcquireBuffers_loop_all_fail (bufs : Buffers) (w : World E) :
  Forall (fun b => (0 <= acquire_fence_fd b)%Z) bufs ->
  (forall fd t w0, (sync_wait E fd t w0).1 <> OK) ->
  exists w', AcquireBuffers_loop E bufs w = inr ([], w').
Proof.
  intros Hall Hfail. revert w.
  induction Hall as [|b bs Hb _ IH]; intros w; [by exists w |].
  cbn [AcquireBuffers_loop].
  destruct (Z.leb_spec 0 (acquire_fence_fd b)); [| lia].
  unfold bind at 1, call.
  destruct (sync_wait E (acquire_fence_fd b) (ns2ms (kMaxFrameDuration E)) w)
    as [r w1] eqn:Hw.
  destruct (IH w1) as [w' Hrest]. unfold bind, ret. rewrite Hrest.
  exists w'. specialize (Hfail (acquire_fence_fd b)
                           (ns2ms (kMaxFrameDuration E)) w).
  rewrite Hw in Hfail. cbn in Hfail.
  by destruct (Z.eqb_spec r OK).
Qed.

Lemma worker_failure_state (s s' : Proc E) request rest (b : SensorBuffer) callee :
  pending_requests_ s = request :: rest ->
  RequestProcessorLoop_body E s = inr (tt, s') ->
  trace s' = trace s ++
    [EvInitializeSensorSettings
       (effective_settings (last_settings_ s) request);
     EvNotify callee (pipeline_id b)
       (error_message (frame_number b) kErrorResult)] ->
  last_settings_ s' = effective_settings (last_settings_ s) request /\
  dispatches (trace s') = dispatches (trace s) /\
  notifications (trace s') =
  notifications (trace s) ++
  [(callee, pipeline_id b, error_message (frame_number b) kErrorResult)].
Proof.
  intros Hq Hrun Ht.
  destruct (body_inv E s s' request rest Hq Hrun)
    as (_ & _ & _ & _ & _ & _ & _ & _ & _ & _ & _ & Hl & _).
  split; [done |]. rewrite Ht, dispatches_app. unfold notifications.
  rewrite omap_app. cbn. by rewrite app_nil_r.
Qed.

(** X19.  When the settings of the request at the head do not resolve with
    [OK], and its first output buffer names a callee, the iteration makes no
    dispatch: it delivers one result error for that buffer's frame number
    and pipeline, with no stream, and pops the request.  Explicit settings
    that failed to resolve are remembered all the same. *)
Theorem X19_settings_failure_is_result_error (s : Proc E) request rest b bs
    callee :
  pending_requests_ s = request :: rest ->
  output_buffers request = Some (b :: bs) ->
  notify (callback b) = Some callee ->
  (InitializeSensorSettings E (effective_settings (last_settings_ s) request)
     (world s)).1.1 <> OK ->
  exists s',
    RequestProcessorLoop_body E s = inr (tt, s') /\
    pending_requests_ s' = rest /\
    last_settings_ s' = effective_settings (last_settings_ s) request /\
    dispatches (trace s') = dispatches (trace s) /\
    notifications (trace s') =
    notifications (trace s) ++
    [(callee, pipeline_id b,
      {| msg_type := kErrorMessage; msg_frame_number := frame_number b;
         error_stream_id := (-1)%Z; error_code := kErrorResult |})].
Proof.
  intros Hq Hout Hcb Hfail.
  destruct (InitializeSensorSettings E
              (effective_settings (last_settings_ s) request) (world s))
    as [[r st] w1] eqn:Hinit.
  destruct (AcquireBuffers_loop_forwarded E (b :: bs) w1)
    as (outs & w2 & Hacq & _).
  destruct (worker_result_error E s request rest b bs callee r st w1 outs w2
              Hq Hout Hcb Hinit Hacq (or_intror Hfail))
    as (s' & Hrun & Hq' & Ht & _).
  exists s'. split; [done |]. split; [done |].
  by eapply worker_failure_state.
Qed.

(** X20.  When every output buffer of the request at the head carries a
    fence descriptor and every wait fails, no output buffer is acquired:
    whatever the settings, the iteration makes no dispatch, delivers one
    result error to the callee of the first output buffer and pops the
    request. *)
Theorem X20_fence_failures_are_result_error (s : Proc E) request rest b bs
    callee :
  pending_requests_ s = request :: rest ->
  output_buffers request = Some (b :: bs) ->
  notify (callback b) = Some callee ->
  Forall (fun o => (0 <= acquire_fence_fd o)%Z) (b :: bs) ->
  (forall fd t w0, (sync_wait E fd t w0).1 <> OK) ->
  exists s',
    RequestProcessorLoop_body E s = inr (tt, s') /\
    pending_requests_ s' = rest /\
    dispatches (trace s') = dispatches (trace s) /\
    notifications (trace s') =
    notifications (trace s) ++
    [(callee, pipeline_id b,
      {| msg_type := kErrorMessage; msg_frame_number := frame_number b;
         error_stream_id := (-1)%Z; error_code := kErrorResult |})].
Proof.
  intros Hq Hout Hcb Hfenced Hfail.
  destruct (InitializeSensorSettings E
              (effective_settings (last_settings_ s) request) (world s))
    as [[r st] w1] eqn:Hinit.
  destruct (AcquireBuffers_loop_all_fail (b :: bs) w1 Hfenced Hfail)
    as [w2 Hacq].
  destruct (worker_result_error E s request rest b bs callee r st w1 [] w2
              Hq Hout Hcb Hinit Hacq (or_introl eq_refl))
    as (s' & Hrun & Hq' & Ht & _).
  exists s'. split; [done |]. split; [done |].
  by eapply worker_failure_state.
Qed.

End MoreFailures.

Lemma X19_witness :
  exists s',
    RequestProcessorLoop_body (example_collaborators true true true)
      example_run_2_unset = inr (tt, s') /\
    pending_requests_ s' = [] /\
    last_settings_ s' = None /\
    dispatches (trace s') = dispatches (trace example_run_2_unset) /\
    notifications (trace s') =
    notifications (trace example_run_2_unset) ++
    [(7, 0%Z,
      {| msg_type := kErrorMessage; msg_frame_number := 1%Z;
         error_stream_id := (-1)%Z; error_code := kErrorResult |})].
Proof.
  apply (X19_settings_failure_is_result_error
           (example_collaborators true true true) example_run_2_unset
           (example_pending None (Some [example_buffer 1 (-1) example_callback]))
           [] (example_buffer 1 (-1) example_callback) [] 7);
    try reflexivity.
  discriminate.
Defined.

Lemma X20_witness :
  exists s',
    RequestProcessorLoop_body (example_collaborators true true false)
      example_fenced = inr (tt, s') /\
    pending_requests_ s' = [] /\
    dispatches (trace s') = dispatches (trace example_fenced) /\
    notifications (trace s') =
    notifications (trace example_fenced) ++
    [(7, 0%Z,
      {| msg_type := kErrorMessage; msg_frame_number := 1%Z;
         error_stream_id := (-1)%Z; error_code := kErrorResult |})].
Proof.
  apply (X20_fence_failures_are_result_error
           (example_collaborators true true false) example_fenced
           (example_pending (Some (MetadataBlob 11))
              (Some [example_buffer 1 5 example_callback]))
           [] (example_buffer 1 5 example_callback) [] 7);
    try reflexivity.
  - apply Forall_cons. split; [cbn; lia | apply Forall_nil_2].
  - intros fd t w0. discriminate.
Defined.
